(** * fastform: formulary ingestion and NDC -> RxCUI resolution

    A shallow embedding of [fastform/ndc_to_rxcui.py] and
    [fastform/ingest_cms.py], with the properties of the ingestion and
    normalisation pipeline proved over it.

    Conventions of the embedding.
    - A Python [str] is a [string]; whitespace, [upper] and [lower] are those
      of the ASCII characters, every other character is left alone and is
      not whitespace.  The model is Python's on text made of ASCII
      characters; on other text Python's Unicode whitespace and case
      mapping differ from it, and statements that depend on them are made
      for ASCII text.
    - A value decoded by [json.loads] is a [json]; Python's [None] is
      [JNull].  Numbers are the integers.
    - The process-wide [_cache] is a dict, modelled as a [gmap string json];
      the cache file is absent, unreadable, or holds such a dict.
    - The network and the file system are the environment: [env] fixes what
      each request returns and which cache writes fail, the [world] records
      what the program did (requests, sleeps, writes) in order. *)

From Stdlib Require Import String Ascii List Bool Arith ZArith Lia.
From stdpp Require Import base option list strings gmap.

(** ** Python strings *)
Module PyStr.

(** [str.isspace] on one ASCII character: TAB..CR, FS..US and the space. *)
Definition is_space (c : ascii) : bool :=
  let n := nat_of_ascii c in
  ((9 <=? n) && (n <=? 13)) || ((28 <=? n) && (n <=? 32)).

Definition upper_char (c : ascii) : ascii :=
  let n := nat_of_ascii c in
  if (97 <=? n) && (n <=? 122) then ascii_of_nat (n - 32) else c.

Definition lower_char (c : ascii) : ascii :=
  let n := nat_of_ascii c in
  if (65 <=? n) && (n <=? 90) then ascii_of_nat (n + 32) else c.

Fixpoint map_chars (f : ascii -> ascii) (s : string) : string :=
  match s with
  | EmptyString => EmptyString
  | String c s' => String (f c) (map_chars f s')
  end.

(** [s.upper()] and [s.lower()] *)
Definition upper (s : string) : string := map_chars upper_char s.
Definition lower (s : string) : string := map_chars lower_char s.

(** [s.replace(c, "")] for a one-character pattern [c] *)
Fixpoint remove_char (c : ascii) (s : string) : string :=
  match s with
  | EmptyString => EmptyString
  | String d s' =>
      if Ascii.eqb c d then remove_char c s' else String d (remove_char c s')
  end.

Fixpoint lstrip (s : string) : string :=
  match s with
  | EmptyString => EmptyString
  | String c s' => if is_space c then lstrip s' else s
  end.

Fixpoint rstrip (s : string) : string :=
  match s with
  | EmptyString => EmptyString
  | String c s' =>
      match rstrip s' with
      | EmptyString => if is_space c then EmptyString else String c EmptyString
      | r => String c r
      end
  end.

(** [s.strip()] *)
Definition strip (s : string) : string := rstrip (lstrip s).

(** [s.startswith(p)] *)
Fixpoint startswith (p s : string) : bool :=
  match p, s with
  | EmptyString, _ => true
  | String _ _, EmptyString => false
  | String a p', String b s' => Ascii.eqb a b && startswith p' s'
  end.

(** [p in s] *)
Fixpoint contains (p s : string) : bool :=
  startswith p s ||
  match s with
  | EmptyString => false
  | String _ s' => contains p s'
  end.

(** [s.endswith(p)] *)
Fixpoint endswith (p s : string) : bool :=
  String.eqb p s ||
  match s with
  | EmptyString => false
  | String _ s' => endswith p s'
  end.

(** truth value of a [str]: non-empty *)
Definition nonempty (s : string) : bool := negb (String.eqb s "").

End PyStr.

(** ** JSON values, as [json.loads] returns them *)
Module Json.

#[local] Set Warnings "-register-all".

Inductive json : Type :=
| JNull
| JBool (b : bool)
| JNum (n : Z)
| JStr (s : string)
| JArr (l : list json)
| JObj (l : list (string * json)).

(** Python's truth value: [None], [False], [0], [""], [[]] and [{}] are
    false, everything else is true. *)
Definition truthy (v : json) : bool :=
  match v with
  | JNull => false
  | JBool b => b
  | JNum n => negb (n =? 0)%Z
  | JStr s => PyStr.nonempty s
  | JArr l => match l with [] => false | _ => true end
  | JObj l => match l with [] => false | _ => true end
  end.

(** [a or b] *)
Definition or_ (a b : json) : json := if truthy a then a else b.

(** The members of an object in document order; the dict that [json.loads]
    builds keeps the last member of each name. *)
Fixpoint member (k : string) (l : list (string * json)) : option json :=
  match l with
  | [] => None
  | (k', v) :: l' =>
      match member k l' with
      | Some v' => Some v'
      | None => if String.eqb k k' then Some v else None
      end
  end.

End Json.
Export Json.


(** ** [ndc_to_rxcui.py]: the identifier resolver and its cache *)
Module Resolver.

(** The cache file [data/.rxnorm_ndc_cache.json]. *)
Inductive file : Type :=
| Missing
| Unreadable
| Holds (c : gmap string json).

(** What the resolver does to the outside, in order. *)
Inductive event : Type :=
| Get (url : string)
| Sleep
| Write (c : gmap string json) (ok : bool).

Definition is_get (e : event) : bool :=
  match e with Get _ => true | _ => false end.
Definition is_sleep (e : event) : bool :=
  match e with Sleep => true | _ => false end.
Definition is_write (e : event) : bool :=
  match e with Write _ _ => true | _ => false end.

Definition count (p : event -> bool) (t : list event) : nat :=
  length (List.filter p t).

(** The environment of a run.  [remote n url] is the body of the [n]-th
    request of the process, parsed, or [None] when [urlopen], [read],
    [decode] or [json.loads] raises.  [write_fault n] is [None] when the
    [n]-th [write_text] of the process succeeds, and [Some f] when it
    raises, leaving [f] on disk. *)
Record env : Type := Env {
  remote : nat -> string -> option json;
  write_fault : nat -> option file
}.

Record world : Type := World {
  _cache : gmap string json;
  disk : file;
  trace : list event
}.

Definition gets (w : world) : nat := count is_get (trace w).
Definition sleeps (w : world) : nat := count is_sleep (trace w).
Definition writes (w : world) : nat := count is_write (trace w).

(** Module start-up: [_cache = {}], replaced by the file's content when the
    file exists and parses. *)
Definition load (d : file) : gmap string json :=
  match d with
  | Holds c => c
  | Missing | Unreadable => ∅
  end.

Definition start (d : file) : world :=
  {| _cache := load d; disk := d; trace := [] |}.

(** [_save()]: an exception of [write_text] is swallowed. *)
Definition _save (e : env) (w : world) : world :=
  match write_fault e (writes w) with
  | None =>
      {| _cache := _cache w; disk := Holds (_cache w);
         trace := trace w ++ [Write (_cache w) true] |}
  | Some f =>
      {| _cache := _cache w; disk := f;
         trace := trace w ++ [Write (_cache w) false] |}
  end.

Definition url_of (key : string) : string :=
  "https://rxnav.nlm.nih.gov/REST/rxcui.json?idtype=NDC&id=" +:+ key.

(** [urlopen(url)] ... [json.loads(...)] *)
Definition fetch (e : env) (url : string) (w : world) : option json * world :=
  (remote e (gets w) url,
   {| _cache := _cache w; disk := disk w; trace := trace w ++ [Get url] |}).

(** [time.sleep(0.5)] *)
Definition sleep (w : world) : world :=
  {| _cache := _cache w; disk := disk w; trace := trace w ++ [Sleep] |}.

(** [_cache[key] = val] *)
Definition store (key : string) (val : json) (w : world) : world :=
  {| _cache := <[key := val]> (_cache w); disk := disk w; trace := trace w |}.

(** [d.get(k, default)] on a decoded value; [None] is the [AttributeError]
    of a value that is not a dict. *)
Definition get (d : json) (k : string) (dflt : json) : option json :=
  match d with
  | JObj l => Some (default dflt (member k l))
  | _ => None
  end.

(** Lines 34-35: the identifier of a decoded body; [None] when one of the
    two [get]s raises. *)
Definition rxnormId (data : json) : option json :=
  match get data "idGroup" (JObj []) with
  | None => None
  | Some g =>
      match get g "rxnormId" JNull with
      | None => None
      | Some rxcui =>
          Some (match rxcui with
                | JArr (x :: _) => x
                | _ => JNull
                end)
      end
  end.

(** The loop [for _ in range(n)] of lines 30-40 followed by lines 41-43. *)
Fixpoint attempts (e : env) (n : nat) (key : string) (w : world) : json * world :=
  match n with
  | 0 =>
      (JNull, _save e (store key JNull w))
  | S n' =>
      let (resp, w1) := fetch e (url_of key) w in
      match resp ≫= rxnormId with
      | Some val => (val, _save e (store key val w1))
      | None => attempts e n' key (sleep w1)
      end
  end.

(** [key = ndc.replace("-", "").strip()] *)
Definition key_of (ndc : string) : string :=
  PyStr.strip (PyStr.remove_char "-" ndc).

Definition ndc_to_rxcui (e : env) (ndc : string) (w : world) : json * world :=
  let key := key_of ndc in
  if negb (PyStr.nonempty key) then (JNull, w)
  else
    match _cache w !! key with
    | Some v => (or_ v JNull, w)
    | None => attempts e 3 key w
    end.

(** Resolving a list of codes one after the other, as a run does. *)
Fixpoint resolve_all (e : env) (codes : list string) (w : world) : world :=
  match codes with
  | [] => w
  | ndc :: rest => resolve_all e rest (ndc_to_rxcui e ndc w).2
  end.

(** Vocabulary of the statements: the world after more events, the events
    of [k] failed attempts, and an attempt that fails ([resp] raises, or
    the body is not shaped as lines 34-35 need). *)
Definition after (w : world) (t : list event) : world :=
  {| _cache := _cache w; disk := disk w; trace := trace w ++ t |}.

Fixpoint retries (url : string) (k : nat) : list event :=
  match k with
  | 0 => []
  | S k' => Get url :: Sleep :: retries url k'
  end.

Definition attempt (e : env) (w : world) (i : nat) (key : string) : option json :=
  remote e (gets w + i) (url_of key) ≫= rxnormId.

End Resolver.

(** ** [ingest_cms.py]: table location, row normalisation, the pipeline *)
Module Ingest.
Import Resolver.

(** A value of a row: a [str], or [None] where [csv.DictReader] filled a
    short line with its [restval]. *)
Definition truthy_s (v : option string) : bool :=
  match v with
  | Some s => PyStr.nonempty s
  | None => false
  end.

(** [a or b] on row values, and [a or d] with a [str] default *)
Definition or_s (a b : option string) : option string :=
  if truthy_s a then a else b.

Definition or_str (a : option string) (d : string) : string :=
  match a with
  | Some s => if PyStr.nonempty s then s else d
  | None => d
  end.

(** [str(v)], also what an f-string makes of [v] *)
Definition str (v : option string) : string :=
  match v with
  | Some s => s
  | None => "None"
  end.

Definition to_json (v : option string) : json :=
  match v with
  | Some s => JStr s
  | None => JNull
  end.

(** One dict of [csv.DictReader]: the header's columns paired with the
    line's values ([None] for a short line), and under the key [None] the
    surplus values of a line longer than the header.  A table is the list
    of the dicts the reader yields while the loop iterates it: blank lines,
    which the reader skips, are not among them, and an error of the reader
    itself ([csv.Error], I/O) is outside the model. *)
Record dictrow : Type := DictRow {
  fields : list (string * option string);
  surplus : option (list string)
}.

Definition table : Type := list dictrow.

(** The input path: an archive ([path.suffix.lower() == ".zip"]) with its
    entries in [namelist()] order, or any other file, read as a table. *)
Inductive input : Type :=
| Zip (entries : list (string * table))
| Csv (t : table).

Inductive exn : Type :=
| RuntimeError (msg : string)
| AttributeError.

(** A Raw Row, as yielded. *)
Definition row : Type := gmap string (option string).

(** What a generator does when it is resumed again and again. *)
Inductive rows : Type :=
| Stop
| Raise (x : exn)
| Yield (r : row) (rest : rows).

(** [d[k] = v] on a dict kept in insertion order: a key that is already
    there keeps its place and takes the new value. *)
Fixpoint dict_set (k : string) (v : option string)
    (d : list (string * option string)) : list (string * option string) :=
  match d with
  | [] => [(k, v)]
  | (k', v') :: d' =>
      if String.eqb k k' then (k', v) :: d' else (k', v') :: dict_set k v d'
  end.

(** [dict(pairs).items()]: what [csv.DictReader] hands over when the header
    repeats a name. *)
Definition dict_items (pairs : list (string * option string))
  : list (string * option string) :=
  foldl (fun d kv => dict_set kv.1 kv.2 d) [] pairs.

(** The dict comprehension of lines 29 and 34 over the items of the
    reader's dict; [k.strip()] raises on the key [None]. *)
Definition strip_row (d : dictrow) : option row :=
  match surplus d with
  | Some _ => None
  | None =>
      Some (foldl (fun (m : row) kv => <[PyStr.strip kv.1 := PyStr.strip <$> kv.2]> m)
                  ∅ (dict_items (fields d)))
  end.

(** [for row in reader: yield ...] *)
Fixpoint yield_rows (t : table) : rows :=
  match t with
  | [] => Stop
  | d :: t' =>
      match strip_row d with
      | Some r => Yield r (yield_rows t')
      | None => Raise AttributeError
      end
  end.

Definition is_formulary (n : string) : bool :=
  PyStr.contains "formulary" (PyStr.lower n) && PyStr.endswith ".csv" (PyStr.lower n).

(** [z.open(name)]: the archive's last entry of that name. *)
Fixpoint zopen (name : string) (entries : list (string * table)) : table :=
  match entries with
  | [] => []
  | (n, t) :: rest =>
      if existsb (String.eqb name) (map fst rest) then zopen name rest
      else if String.eqb name n then t else []
  end.

(** The body of the generator function; none of it runs before the first
    [next]. *)
Definition _open_formulary_rows (path : input) : rows :=
  match path with
  | Zip entries =>
      let cand := List.filter is_formulary (map fst entries) in
      match cand with
      | [] => Raise (RuntimeError "No *formulary*.csv found inside ZIP")
      | n :: _ => yield_rows (zopen n entries)
      end
  | Csv t => yield_rows t
  end.

Definition truthy_tokens : gset string :=
  {[ "Y"; "YES"; "TRUE"; "T"; "1" ]}.

Definition _norm_bool (v : option string) : bool :=
  bool_decide (PyStr.upper (PyStr.strip (str v)) ∈ truthy_tokens).

(** [r.get(k)] and [r.get(k, d)] *)
Definition rget (r : row) (k : string) : option string :=
  default None (r !! k).
Definition rget_default (r : row) (k : string) (d : string) : option string :=
  default (Some d) (r !! k).

Definition header : list json :=
  map JStr ["plan_id"; "rxcui"; "drug_name"; "strength"; "route"; "tier";
            "pa"; "st"; "ql"; "ql_max_qty"; "ql_per_days"; "alt_rxcui"; "notes"].

(** The state of the loop of [ingest_to_rules]: the resolver's world, the
    lines written to [out_path] so far, and the two counters. *)
Record run : Type := Run {
  w : world;
  out : list (list json);
  n_in : nat;
  n_out : nat
}.

(** Lines 50-53: the four required fields of a row. *)
Definition contract_of (r : row) : option string :=
  or_s (rget r "CONTRACT_ID") (rget r "PARENT_ORGANIZATION_CONTRACT_ID").
Definition plan_of (r : row) : option string :=
  or_s (rget r "PLAN_ID") (rget r "PBP").
Definition ndc_of (r : row) : string :=
  PyStr.remove_char "-" (or_str (or_s (rget r "NDC") (rget r "NDC_11")) "").
Definition tier_of (r : row) : option string :=
  or_s (rget r "TIER") (rget r "FORMULARY_TIER").

(** Line 75: the rule written for a row whose code resolved to [rxcui]. *)
Definition rule (r : row) (rxcui : json) : list json :=
  let pa := _norm_bool (rget_default r "PRIOR_AUTHORIZATION_FLAG" "N") in
  let st := _norm_bool (rget_default r "STEP_THERAPY_FLAG" "N") in
  let ql := _norm_bool (rget_default r "QUANTITY_LIMIT_FLAG" "N") in
  let ql_qty := or_str (rget r "QL_QTY") "" in
  let ql_days := or_str (rget r "QL_DAYS") "" in
  let plan_key := str (contract_of r) +:+ "-" +:+ str (plan_of r) in
  [JStr plan_key; rxcui; JStr ""; JStr ""; JStr ""; to_json (tier_of r);
   JBool pa; JBool st; JBool ql; JStr ql_qty; JStr ql_days; JStr ""; JStr "CMS-PUF"].

(** Lines 49-76: the body of the loop for one row. *)
Definition body (e : env) (r : row) (s : run) : run :=
  let n_in' := S (n_in s) in
  if negb (truthy_s (contract_of r)) || negb (truthy_s (plan_of r))
     || negb (PyStr.nonempty (ndc_of r)) || negb (truthy_s (tier_of r))
  then {| w := w s; out := out s; n_in := n_in'; n_out := n_out s |}
  else
    let (rxcui, w') := ndc_to_rxcui e (ndc_of r) (w s) in
    if negb (truthy rxcui)
    then {| w := w'; out := out s; n_in := n_in'; n_out := n_out s |}
    else {| w := w'; out := out s ++ [rule r rxcui]; n_in := n_in';
            n_out := S (n_out s) |}.

(** Vocabulary of the statements: the four required fields are all
    non-empty after fallback extraction. *)
Definition complete (r : row) : bool :=
  truthy_s (contract_of r) && truthy_s (plan_of r)
  && PyStr.nonempty (ndc_of r) && truthy_s (tier_of r).

(** What the loop keeps true: nothing is written that was not read, and
    the file holds the header and one line per rule written. *)
Definition counted (s : run) : Prop :=
  n_out s <= n_in s /\
  exists lines, out s = header :: lines /\ length lines = n_out s.

(** How a call ends: with the pair of counts, or with an exception. *)
Inductive outcome : Type :=
| Returned (n_in n_out : nat)
| Raised (x : exn).

(** [for r in rows: ...], then the [return] after the loop. *)
Fixpoint loop (e : env) (g : rows) (s : run) : outcome * run :=
  match g with
  | Stop => (Returned (n_in s) (n_out s), s)
  | Raise x => (Raised x, s)
  | Yield r g' => loop e g' (body e r s)
  end.

(** [ingest_to_rules(input_path, out_path)], started in world [w0].  The
    generator is created first and resumed only by the loop, after
    [out_path] has been opened for writing (which empties it, whatever it
    held) and the header written; leaving the [with] block closes the file
    on either exit.  [out_path] is the content of the file before the call
    ([None]: no such file); the result carries the final world and the
    content of the file after the call.  The [mkdir] of line 40 is left
    out, and [input_path] and [out_path] are taken to be different
    files. *)
Definition ingest_to_rules (e : env) (input_path : input)
    (out_path : option (list (list json))) (w0 : world)
  : outcome * world * option (list (list json)) :=
  let rows := _open_formulary_rows input_path in
  let opened : list (list json) := [] in
  let s0 := {| w := w0; out := opened ++ [header]; n_in := 0; n_out := 0 |} in
  let (res, s) := loop e rows s0 in
  (res, w s, Some (out s)).

End Ingest.

(** ** [api.py]: the admin trigger *)
Module Api.
Import Resolver Ingest.

(** What [api.py] uses without defining it: [settings.admin_key], a [str]
    or [None], and the collaborator [reindex], taken as a function of the
    rules file at [settings.data_path] that returns a dict. *)
Record settings : Type := Settings {
  admin_key : option string;
  reindex : option (list (list json)) -> gmap string json
}.

(** How a request ends: an [HTTPException] raised by the handler, an
    exception of [ingest_to_rules] passing through, or the returned dict. *)
Inductive response : Type :=
| HTTPException (status_code : nat) (detail : string)
| Propagated (x : exn)
| Ok (body : gmap string json).

(** [ingest_local(file_path, x_admin_key)].  [x_admin_key] is [None] when
    the request has no [X-Admin-Key] header; [file_path] is [None] when
    nothing exists at the path; [data_path] is the content of the rules
    file before the request.  The result carries the world and the rules
    file after the request.  [a | b] keeps the entries of [b] where both
    dicts have the key. *)
Definition ingest_local (cfg : settings) (e : env)
    (file_path : option input) (x_admin_key : option string)
    (data_path : option (list (list json))) (w0 : world)
  : response * world * option (list (list json)) :=
  if negb (bool_decide (x_admin_key = Some (or_str (admin_key cfg) "dev")))
  then (HTTPException 401 "unauthorized", w0, data_path)
  else
    match file_path with
    | None => (HTTPException 400 "file not found", w0, data_path)
    | Some inp =>
        match ingest_to_rules e inp data_path w0 with
        | (Returned n_in n_out, w1, outp) =>
            (Ok ({[ "ingested_rows" := JNum (Z.of_nat n_in);
                    "kept_rows" := JNum (Z.of_nat n_out) ]}
                 ∪ reindex cfg outp),
             w1, outp)
        | (Raised x, w1, outp) => (Propagated x, w1, outp)
        end
    end.

End Api.

(** ** Vocabulary of the further statements *)
Module Notions.
Import Resolver Ingest.

(** The character [c] does not occur in [s]. *)
Fixpoint no_char (c : ascii) (s : string) : Prop :=
  match s with
  | EmptyString => True
  | String d s' => Ascii.eqb c d = false /\ no_char c s'
  end.

(** [s] is made of whitespace only. *)
Fixpoint all_space (s : string) : Prop :=
  match s with
  | EmptyString => True
  | String c s' => PyStr.is_space c = true /\ all_space s'
  end.

(** [s] does not begin with whitespace. *)
Definition no_lead (s : string) : Prop :=
  match s with
  | EmptyString => True
  | String c _ => PyStr.is_space c = false
  end.

(** A cache key as the resolver makes them: not empty, without dash,
    without whitespace at either end. *)
Definition normal_key (k : string) : Prop :=
  k <> "" /\ no_char "-" k /\ PyStr.strip k = k.

Definition normal_keys (c : gmap string json) : Prop :=
  forall k, is_Some (c !! k) -> normal_key k.

(** A process started on the cache file as it is now would begin with the
    cache this process has in memory. *)
Definition synced (w : world) : Prop := load (disk w) = _cache w.

(** A decoded body on which lines 34-35 raise: not an object, or with an
    [idGroup] that is not an object. *)
Definition malformed (data : json) : bool :=
  match data with
  | JObj top =>
      match member "idGroup" top with
      | Some (JObj _) | None => false
      | Some _ => true
      end
  | _ => true
  end.

(** Column [k] of the row holds the non-empty string [s]; column [k] is
    absent, [None] or empty; [s] is what the fallback chain [k1], [k2]
    picks. *)
Definition filled (r : row) (k s : string) : Prop :=
  r !! k = Some (Some s) /\ s <> "".
Definition blank (r : row) (k : string) : Prop :=
  forall s, ~ filled r k s.
Definition chosen (r : row) (k1 k2 s : string) : Prop :=
  filled r k1 s \/ (blank r k1 /\ filled r k2 s).

(** A data line of the output: a plan key made of a contract and a plan,
    an identifier, three blanks, the tier, the three flags, the two
    quantity-limit fields, a blank and the source tag. *)
Definition rule_line (l : list json) : Prop :=
  exists c p rxcui t pa st ql qty days,
    l = [JStr (c +:+ "-" +:+ p); rxcui; JStr ""; JStr ""; JStr ""; JStr t;
         JBool pa; JBool st; JBool ql; JStr qty; JStr days; JStr "";
         JStr "CMS-PUF"] /\
    c <> "" /\ p <> "" /\ t <> "" /\ truthy rxcui = true.

(** The four required fields of a row, read off its columns: [c], [p],
    [n] and [t] are what the fallback chains pick for contract, plan, code
    and tier, and the code is more than dashes. *)
Definition required (r : row) (c p n t : string) : Prop :=
  chosen r "CONTRACT_ID" "PARENT_ORGANIZATION_CONTRACT_ID" c /\
  chosen r "PLAN_ID" "PBP" p /\
  chosen r "NDC" "NDC_11" n /\ PyStr.remove_char "-" n <> "" /\
  chosen r "TIER" "FORMULARY_TIER" t.

(** Text made of ASCII characters only. *)
Fixpoint ascii_text (s : string) : Prop :=
  match s with
  | EmptyString => True
  | String c s' => nat_of_ascii c < 128 /\ ascii_text s'
  end.

(** Every way of writing Y, YES, TRUE, T and 1 in upper and lower case. *)
Definition truthy_spellings : list string :=
  [ "Y"; "y"; "T"; "t"; "1";
    "YES"; "YEs"; "YeS"; "Yes"; "yES"; "yEs"; "yeS"; "yes";
    "TRUE"; "TRUe"; "TRuE"; "TRue"; "TrUE"; "TrUe"; "TruE"; "True";
    "tRUE"; "tRUe"; "tRuE"; "tRue"; "trUE"; "trUe"; "truE"; "true" ].

(** The three flag cells of a rule and the columns they come from. *)
Definition flag_cells : list (nat * string) :=
  [ (6, "PRIOR_AUTHORIZATION_FLAG"); (7, "STEP_THERAPY_FLAG");
    (8, "QUANTITY_LIMIT_FLAG") ].

(** Every column name and every string value of the row is free of
    surrounding whitespace. *)
Definition trimmed_row (m : row) : Prop :=
  forall k v, m !! k = Some v ->
    PyStr.strip k = k /\ forall s, v = Some s -> PyStr.strip s = s.

(** No line of the table is longer than the header. *)
Definition fits_header (t : table) : Prop :=
  Forall (fun d => surplus d = None) t.

(** The lines a run adds to the output for the rows of [g], read off a
    cache [c] alone. *)
Definition cached_line (c : gmap string json) (r : row) : list (list json) :=
  if complete r && PyStr.nonempty (key_of (ndc_of r))
  then match c !! key_of (ndc_of r) with
       | Some v => if truthy v then [rule r v] else []
       | None => []
       end
  else [].

(** The rows a generator yields before it stops or raises. *)
Fixpoint yielded (g : rows) : list row :=
  match g with
  | Yield r g' => r :: yielded g'
  | Stop | Raise _ => []
  end.

(** The loop of [ingest_to_rules] with every code looked up in a fixed
    cache [c], the world left alone. *)
Fixpoint replay (c : gmap string json) (g : rows) (s : run) : outcome * run :=
  match g with
  | Stop => (Returned (n_in s) (n_out s), s)
  | Raise x => (Raised x, s)
  | Yield r g' =>
      replay c g'
        {| w := w s; out := out s ++ cached_line c r; n_in := S (n_in s);
           n_out := length (cached_line c r) + n_out s |}
  end.

(** The cache knows the code of every complete row of the list. *)
Definition covers (c : gmap string json) (l : list row) : Prop :=
  forall r, r ∈ l -> complete r = true -> key_of (ndc_of r) <> "" ->
            is_Some (c !! key_of (ndc_of r)).

End Notions.

(** ** Concrete environments and inputs, used to run the model *)
Module Examples.
Import Resolver Ingest.

(** A body with the identifier in an array, as RxNav sends it, one with a
    bare string in its place, and one without identifier. *)
Definition body_array : json :=
  JObj [("idGroup", JObj [("rxnormId", JArr [JStr "198440"])])].
Definition body_string : json :=
  JObj [("idGroup", JObj [("rxnormId", JStr "198440")])].
Definition body_none : json :=
  JObj [("idGroup", JObj [])].

Definition no_fault : nat -> option file := fun _ => None.

(** Every request answered with the same body. *)
Definition env_const (body : json) : env :=
  {| remote := fun _ _ => Some body; write_fault := no_fault |}.

(** The first two requests of the process fail, the later ones succeed. *)
Definition env_flaky : env :=
  {| remote := fun n _ => match n with 0 | 1 => None | _ => Some body_array end;
     write_fault := no_fault |}.

(** The service is down, and the cache file cannot be written either. *)
Definition env_down : env :=
  {| remote := fun _ _ => None; write_fault := fun _ => Some Unreadable |}.

(** Only the code 0002143380 has a mapping. *)
Definition env_one : env :=
  {| remote := fun _ url =>
       if String.eqb url (url_of "0002143380") then Some body_array
       else Some body_none;
     write_fault := no_fault |}.

Definition w_hit : world :=
  start (Holds {[ "0002143380" := JStr "198440" ]}).
Definition w_negative : world :=
  store "0002143380" JNull (start Missing).

Definition line (l : list (string * string)) : dictrow :=
  {| fields := map (fun kv => (kv.1, Some kv.2)) l; surplus := None |}.

(** Three lines: complete and resolvable, no tier, unresolvable. *)
Definition three_lines : table :=
  [ line [("CONTRACT_ID", "H1"); ("PLAN_ID", "001"); ("NDC", "0002-1433-80");
          ("TIER", "2"); ("PRIOR_AUTHORIZATION_FLAG", "y")];
    line [("CONTRACT_ID", "H1"); ("PLAN_ID", "001"); ("NDC", "0002-1433-80");
          ("TIER", "")];
    line [("CONTRACT_ID", "H1"); ("PLAN_ID", "001"); ("NDC", "99999-9999-99");
          ("TIER", "1")] ].

Definition row_ok : row :=
  {[ "CONTRACT_ID" := Some "H1"; "PLAN_ID" := Some "001";
     "NDC" := Some "0002-1433-80"; "TIER" := Some "2" ]}.

(** A complete row that has only the fallback columns. *)
Definition row_fallback : row :=
  {[ "PARENT_ORGANIZATION_CONTRACT_ID" := Some "H1"; "PBP" := Some "001";
     "NDC_11" := Some "0002-1433-80"; "FORMULARY_TIER" := Some "2";
     "PRIOR_AUTHORIZATION_FLAG" := Some "yes" ]}.

Definition run0 : run :=
  {| w := start Missing; out := [header]; n_in := 0; n_out := 0 |}.

(** An archive without a formulary table. *)
Definition zip_without_table : input :=
  Zip [("readme.txt", []); ("plan_information.csv", three_lines)].

(** Settings without an admin key, and a reindex collaborator that
    reports on the rules file under names of its own and under one of the
    names the handler uses. *)
Definition cfg_unset : Api.settings :=
  {| Api.admin_key := None;
     Api.reindex := fun f =>
       {[ "indexed" := JNum (Z.of_nat (length (default [] f)));
          "kept_rows" := JStr "stale" ]} |}.

(** The service answers, but never with an object. *)
Definition env_garbled : env :=
  {| remote := fun _ _ => Some (JArr [JStr "198440"]); write_fault := no_fault |}.

End Examples.

Import Resolver Ingest.

(** * Properties of the resolver *)

Section ResolverFacts.
Context (e : env).

Lemma count_app p t1 t2 : count p (t1 ++ t2) = count p t1 + count p t2.
Proof. unfold count. by rewrite List.filter_app, length_app. Qed.

Lemma gets_after w t : gets (after w t) = gets w + count is_get t.
Proof. apply count_app. Qed.

Lemma writes_after w t : writes (after w t) = writes w + count is_write t.
Proof. apply count_app. Qed.

Lemma count_get_retries url k : count is_get (retries url k) = k.
Proof. induction k as [|k IH]; [done|]. cbn. unfold count in IH. by rewrite IH. Qed.

Lemma count_write_retries url k : count is_write (retries url k) = 0.
Proof. induction k as [|k IH]; [done|]. cbn. exact IH. Qed.

Lemma count_sleep_retries url k : count is_sleep (retries url k) = k.
Proof. induction k as [|k IH]; [done|]. cbn. unfold count in IH. by rewrite IH. Qed.

Lemma after_after w t1 t2 : after (after w t1) t2 = after w (t1 ++ t2).
Proof. unfold after. cbn. by rewrite app_assoc. Qed.

Lemma after_nil w : after w [] = w.
Proof. destruct w. unfold after. cbn. by rewrite app_nil_r. Qed.

Lemma save_cache w : _cache (_save e w) = _cache w.
Proof. unfold _save. by destruct (write_fault e (writes w)). Qed.

Lemma save_trace w :
  exists ok, trace (_save e w) = trace w ++ [Write (_cache w) ok].
Proof. unfold _save. destruct (write_fault e (writes w)); eauto. Qed.

(** One step of the retry loop. *)
Lemma attempts_step n key w :
  attempts e (S n) key w =
  match attempt e w 0 key with
  | Some val => (val, _save e (store key val (after w [Get (url_of key)])))
  | None => attempts e n key (after w [Get (url_of key); Sleep])
  end.
Proof.
  unfold attempt. cbn [attempts fetch]. rewrite Nat.add_0_r.
  destruct (remote e (gets w) (url_of key) ≫= rxnormId); [done|].
  f_equal. unfold sleep, after. cbn. by rewrite <- app_assoc.
Qed.

Lemma attempt_shift w key i :
  attempt e (after w [Get (url_of key); Sleep]) i key = attempt e w (S i) key.
Proof.
  unfold attempt. rewrite gets_after. cbn. do 2 f_equal. lia.
Qed.

(** The [k+1]-th attempt is the first to succeed. *)
Lemma attempts_success_at k : forall n key w val,
  k < n ->
  (forall i, i < k -> attempt e w i key = None) ->
  attempt e w k key = Some val ->
  attempts e n key w =
  (val, _save e (store key val (after w (retries (url_of key) k ++ [Get (url_of key)])))).
Proof.
  induction k as [|k IH]; intros n key w val Hlt Hfail Hok.
  - destruct n as [|n]; [lia|]. rewrite attempts_step, Hok. done.
  - destruct n as [|n]; [lia|]. rewrite attempts_step, (Hfail 0) by lia.
    rewrite (IH n key _ val); [| lia | |].
    + by rewrite after_after.
    + intros i Hi. rewrite attempt_shift. apply Hfail. lia.
    + by rewrite attempt_shift.
Qed.

(** Every attempt fails. *)
Lemma attempts_all_fail : forall n key w,
  (forall i, i < n -> attempt e w i key = None) ->
  attempts e n key w =
  (JNull, _save e (store key JNull (after w (retries (url_of key) n)))).
Proof.
  induction n as [|n IH]; intros key w Hfail.
  - cbn. by rewrite after_nil.
  - rewrite attempts_step, (Hfail 0) by lia. rewrite IH.
    + by rewrite after_after.
    + intros i Hi. rewrite attempt_shift. apply Hfail. lia.
Qed.

(** The two ways the loop can go. *)
Lemma attempts_cases n key w :
  (exists k val, k < n /\
     (forall i, i < k -> attempt e w i key = None) /\
     attempt e w k key = Some val) \/
  (forall i, i < n -> attempt e w i key = None).
Proof.
  induction n as [|n IH]; [right; intros; lia|].
  destruct IH as [(k & val & Hk & Hf & Hs) | Hall].
  - left. exists k, val. split; [lia | done].
  - destruct (attempt e w n key) as [val|] eqn:Hn.
    + left. exists n, val. split; [lia | split; [exact Hall | exact Hn]].
    + right. intros i Hi. destruct (decide (i = n)) as [->|]; [done|].
      apply Hall. lia.
Qed.

(** The shape of every cache miss: some requests and sleeps, the entry
    stored, one write of the whole cache. *)
Lemma attempts_shape n key w :
  exists val t ok,
    attempts e n key w =
      (val, _save e (store key val (after w t))) /\
    trace (attempts e n key w).2 =
      trace w ++ t ++ [Write (<[key := val]> (_cache w)) ok] /\
    _cache (attempts e n key w).2 = <[key := val]> (_cache w) /\
    count is_get t <= n /\ count is_write t = 0.
Proof.
  assert (Hgen : forall val t, count is_get t <= n -> count is_write t = 0 ->
    attempts e n key w = (val, _save e (store key val (after w t))) ->
    exists val t ok,
      attempts e n key w = (val, _save e (store key val (after w t))) /\
      trace (attempts e n key w).2 =
        trace w ++ t ++ [Write (<[key := val]> (_cache w)) ok] /\
      _cache (attempts e n key w).2 = <[key := val]> (_cache w) /\
      count is_get t <= n /\ count is_write t = 0).
  { intros val t Hg Hw Heq.
    destruct (save_trace (store key val (after w t))) as [ok Hok].
    exists val, t, ok. rewrite Heq. cbn [snd]. rewrite Hok, save_cache. cbn.
    by rewrite <- app_assoc. }
  destruct (attempts_cases n key w) as [(k & val & Hk & Hf & Hs) | Hall].
  - apply (Hgen val (retries (url_of key) k ++ [Get (url_of key)])).
    + rewrite count_app, count_get_retries. cbn. lia.
    + rewrite count_app, count_write_retries. done.
    + by apply attempts_success_at.
  - apply (Hgen JNull (retries (url_of key) n)).
    + rewrite count_get_retries. lia.
    + apply count_write_retries.
    + by apply attempts_all_fail.
Qed.

End ResolverFacts.

Lemma nonempty_true s : PyStr.nonempty s = true <-> s <> "".
Proof.
  unfold PyStr.nonempty. rewrite negb_true_iff. apply String.eqb_neq.
Qed.

Lemma nonempty_false s : PyStr.nonempty s = false <-> s = "".
Proof.
  unfold PyStr.nonempty. rewrite negb_false_iff. apply String.eqb_eq.
Qed.

Section Resolution.
Context (e : env).

Lemma ndc_to_rxcui_empty ndc w :
  key_of ndc = "" -> ndc_to_rxcui e ndc w = (JNull, w).
Proof.
  intros H. unfold ndc_to_rxcui. by rewrite H.
Qed.

Lemma ndc_to_rxcui_hit ndc w v :
  key_of ndc <> "" -> _cache w !! key_of ndc = Some v ->
  ndc_to_rxcui e ndc w = (or_ v JNull, w).
Proof.
  intros Hk Hv. unfold ndc_to_rxcui.
  apply nonempty_true in Hk. by rewrite Hk, Hv.
Qed.

Lemma ndc_to_rxcui_miss ndc w :
  key_of ndc <> "" -> _cache w !! key_of ndc = None ->
  ndc_to_rxcui e ndc w = attempts e 3 (key_of ndc) w.
Proof.
  intros Hk Hv. unfold ndc_to_rxcui.
  apply nonempty_true in Hk. by rewrite Hk, Hv.
Qed.

(** The three ways a resolution can go. *)
Lemma ndc_to_rxcui_cases ndc w :
  (key_of ndc = "" /\ ndc_to_rxcui e ndc w = (JNull, w)) \/
  (key_of ndc <> "" /\ exists v, _cache w !! key_of ndc = Some v /\
     ndc_to_rxcui e ndc w = (or_ v JNull, w)) \/
  (key_of ndc <> "" /\ _cache w !! key_of ndc = None /\
     ndc_to_rxcui e ndc w = attempts e 3 (key_of ndc) w).
Proof.
  destruct (decide (key_of ndc = "")) as [Hk|Hk].
  - left. split; [done|]. by apply ndc_to_rxcui_empty.
  - right. destruct (_cache w !! key_of ndc) as [v|] eqn:Hv.
    + left. split; [done|]. exists v. split; [done|]. by apply ndc_to_rxcui_hit.
    + right. split; [done|]. split; [done|]. by apply ndc_to_rxcui_miss.
Qed.

(** A resolution makes at most three requests and at most one write. *)
Lemma ndc_to_rxcui_bounds ndc w :
  gets (ndc_to_rxcui e ndc w).2 <= gets w + 3 /\
  writes (ndc_to_rxcui e ndc w).2 <= writes w + 1.
Proof.
  destruct (ndc_to_rxcui_cases ndc w)
    as [[_ ->] | [(_ & v & _ & ->) | (_ & _ & ->)]]; cbn [snd]; try lia.
  destruct (attempts_shape e 3 (key_of ndc) w)
    as (val & t & ok & _ & Htr & _ & Hg & Hw).
  unfold gets, writes. rewrite Htr, !count_app, Hw. cbn. lia.
Qed.

(** After a resolution of a non-empty code, the code is a key of the
    cache. *)
Lemma ndc_to_rxcui_cached ndc w :
  key_of ndc <> "" -> is_Some (_cache (ndc_to_rxcui e ndc w).2 !! key_of ndc).
Proof.
  intros Hk.
  destruct (ndc_to_rxcui_cases ndc w)
    as [[Hk' _] | [(_ & v & Hv & ->) | (_ & _ & ->)]]; [done | by eexists |].
  destruct (attempts_shape e 3 (key_of ndc) w)
    as (val & t & ok & _ & _ & Hc & _).
  rewrite Hc, lookup_insert_eq. by eexists.
Qed.

(** An entry of the cache is never changed or removed. *)
Lemma ndc_to_rxcui_keeps ndc w k v :
  _cache w !! k = Some v -> _cache (ndc_to_rxcui e ndc w).2 !! k = Some v.
Proof.
  intros Hkv.
  destruct (ndc_to_rxcui_cases ndc w)
    as [[_ ->] | [(_ & v' & _ & ->) | (_ & Hmiss & ->)]]; [done | done |].
  destruct (attempts_shape e 3 (key_of ndc) w)
    as (val & t & ok & _ & _ & Hc & _).
  rewrite Hc, lookup_insert_ne; [done|]. congruence.
Qed.

Lemma resolve_all_keeps codes : forall w k v,
  _cache w !! k = Some v -> _cache (resolve_all e codes w) !! k = Some v.
Proof.
  induction codes as [|ndc codes IH]; intros w k v Hkv; [done|].
  cbn. apply IH. by apply ndc_to_rxcui_keeps.
Qed.

End Resolution.

(** C9: an input that is empty once dashes and surrounding whitespace are
    stripped resolves to "not found", and the world is left as it was: no
    request, no sleep, no change of the cache in memory, no write to the
    cache file. *)
Theorem empty_code_resolves_to_none (e : env) (ndc : string) (w : world) :
  key_of ndc = "" ->
  ndc_to_rxcui e ndc w = (JNull, w).
Proof. apply ndc_to_rxcui_empty. Qed.

Lemma empty_code_resolves_to_none_witness :
  key_of " - -  " = "" /\
  ndc_to_rxcui (Env (fun _ _ => Some (JObj [])) (fun _ => None)) " - -  "
    (start (Holds {[ "" := JStr "1" ]}))
  = (JNull, start (Holds {[ "" := JStr "1" ]})).
Proof.
  split; [reflexivity|].
  apply (empty_code_resolves_to_none
           (Env (fun _ _ => Some (JObj [])) (fun _ => None)) " - -  ").
  reflexivity.
Defined.

(** C3: resolving a code twice in a row makes at most one remote lookup
    (at most three requests, at most one write, all by the first call):
    the second call leaves the world exactly as it found it.  Whenever the
    normalised code is a key of the cache, mapped to an identifier or to
    [None], the call changes nothing, and for a non-empty code its value is
    the cached one. *)
Theorem second_resolution_served_from_cache (e : env) (ndc : string) (w : world) :
  let first := ndc_to_rxcui e ndc w in
  let second := ndc_to_rxcui e ndc first.2 in
  second.2 = first.2 /\
  gets second.2 <= gets w + 3 /\
  writes second.2 <= writes w + 1 /\
  (is_Some (_cache w !! key_of ndc) -> first.2 = w) /\
  (forall v, key_of ndc <> "" -> _cache w !! key_of ndc = Some v ->
     first = (or_ v JNull, w)).
Proof.
  intros first second.
  assert (H2 : second.2 = first.2).
  { subst second. destruct (decide (key_of ndc = "")) as [Hk|Hk].
    - by rewrite ndc_to_rxcui_empty.
    - destruct (ndc_to_rxcui_cached e ndc w Hk) as [v Hv].
      fold first in Hv. by rewrite (ndc_to_rxcui_hit e ndc first.2 v). }
  split; [done|]. rewrite H2.
  destruct (ndc_to_rxcui_bounds e ndc w) as [Hg Hw].
  split; [done|]. split; [done|]. split.
  - intros [v Hv]. subst first.
    destruct (ndc_to_rxcui_cases e ndc w)
      as [[_ ->] | [(_ & v' & _ & ->) | (_ & Hmiss & _)]]; [done | done |].
    congruence.
  - intros v Hk Hv. by apply ndc_to_rxcui_hit.
Qed.

Lemma second_resolution_served_from_cache_witness :
  is_Some (_cache Examples.w_hit !! key_of "0002-1433-80") /\
  (ndc_to_rxcui Examples.env_flaky "0002-1433-80" Examples.w_hit).2 = Examples.w_hit.
Proof.
  assert (H : is_Some (_cache Examples.w_hit !! key_of "0002-1433-80")).
  { exists (JStr "198440"). vm_compute. reflexivity. }
  split; [exact H|].
  exact (proj1 (proj2 (proj2 (proj2
    (second_resolution_served_from_cache Examples.env_flaky "0002-1433-80"
       Examples.w_hit)))) H).
Defined.

(** C4: a code cached as "not found", written to the cache file and
    loaded again by the next process resolves to "not found" without any
    request, also after any number of other resolutions in that process:
    the entry is never resolved again. *)
Theorem not_found_survives_restart
    (e e' : env) (ndc : string) (codes : list string) (w : world) :
  key_of ndc <> "" ->
  _cache w !! key_of ndc = Some JNull ->
  write_fault e (writes w) = None ->
  let restarted := start (disk (_save e w)) in
  let later := resolve_all e' codes restarted in
  _cache restarted !! key_of ndc = Some JNull /\
  ndc_to_rxcui e' ndc later = (JNull, later).
Proof.
  intros Hk Hc Hw restarted later.
  assert (Hr : _cache restarted !! key_of ndc = Some JNull).
  { subst restarted. unfold _save. rewrite Hw. done. }
  split; [done|].
  rewrite (ndc_to_rxcui_hit e' ndc later JNull); [done | done |].
  subst later. by apply resolve_all_keeps.
Qed.

Lemma not_found_survives_restart_witness :
  key_of "0002-1433-80" <> "" /\
  _cache Examples.w_negative !! key_of "0002-1433-80" = Some JNull /\
  write_fault Examples.env_flaky (writes Examples.w_negative) = None /\
  ndc_to_rxcui Examples.env_one "0002-1433-80"
    (resolve_all Examples.env_one ["99999-9999-99"]
       (start (disk (_save Examples.env_flaky Examples.w_negative))))
  = (JNull,
     resolve_all Examples.env_one ["99999-9999-99"]
       (start (disk (_save Examples.env_flaky Examples.w_negative)))).
Proof.
  assert (Hk : key_of "0002-1433-80" <> "") by (vm_compute; discriminate).
  assert (Hc : _cache Examples.w_negative !! key_of "0002-1433-80" = Some JNull)
    by (vm_compute; reflexivity).
  assert (Hw : write_fault Examples.env_flaky (writes Examples.w_negative) = None)
    by reflexivity.
  split; [exact Hk|]. split; [exact Hc|]. split; [exact Hw|].
  exact (proj2 (not_found_survives_restart Examples.env_flaky Examples.env_one
                  "0002-1433-80" ["99999-9999-99"] Examples.w_negative Hk Hc Hw)).
Defined.

(** Whether writes of the cache file fail has no bearing on the value of a
    cache miss, nor on the cache in memory. *)
Lemma attempts_write_fault_irrelevant (e e' : env) :
  (forall n url, remote e' n url = remote e n url) ->
  forall n key w,
    (attempts e' n key w).1 = (attempts e n key w).1 /\
    _cache (attempts e' n key w).2 = _cache (attempts e n key w).2.
Proof.
  intros Hr. induction n as [|n IH]; intros key w.
  - cbn. by rewrite !save_cache.
  - rewrite !attempts_step. unfold attempt. rewrite Hr.
    destruct (remote e (gets w + 0) (url_of key) ≫= rxnormId) as [val|].
    + cbn [fst snd]. by rewrite !save_cache.
    + apply IH.
Qed.

(** C5, as the code has it: a resolution of a non-empty code that misses
    the cache adds the entry for the code to the cache in memory and then
    writes the whole cache, the new entry included, exactly once, as the
    last thing it does; a resolution served from the cache writes nothing;
    a write that fails is swallowed and changes neither the value returned
    nor the cache in memory. *)
Theorem miss_writes_whole_cache_once (e : env) (ndc : string) (w : world) :
  key_of ndc <> "" ->
  let r := ndc_to_rxcui e ndc w in
  (_cache w !! key_of ndc = None ->
     _cache r.2 = <[key_of ndc := r.1]> (_cache w) /\
     writes r.2 = writes w + 1 /\
     exists t ok,
       trace r.2 = trace w ++ t ++ [Write (<[key_of ndc := r.1]> (_cache w)) ok] /\
       count is_write t = 0 /\
       (ok = true <-> write_fault e (writes w) = None) /\
       (ok = true -> disk r.2 = Holds (<[key_of ndc := r.1]> (_cache w)))) /\
  (is_Some (_cache w !! key_of ndc) ->
     trace r.2 = trace w /\ disk r.2 = disk w) /\
  (forall e', (forall n url, remote e' n url = remote e n url) ->
     (ndc_to_rxcui e' ndc w).1 = r.1 /\
     _cache (ndc_to_rxcui e' ndc w).2 = _cache r.2).
Proof.
  intros Hk r. subst r. split; [|split].
  - intros Hmiss. rewrite ndc_to_rxcui_miss by done.
    destruct (attempts_shape e 3 (key_of ndc) w)
      as (val & t & ok & Heq & Htr & Hc & _ & Hw).
    assert (Hval : (attempts e 3 (key_of ndc) w).1 = val) by (by rewrite Heq).
    rewrite Hval. split; [exact Hc|].
    split; [unfold writes; rewrite Htr, !count_app, Hw; cbn; lia|].
    exists t, ok. split; [exact Htr|]. split; [exact Hw|].
    assert (Hwr : writes (store (key_of ndc) val (after w t)) = writes w).
    { change (writes (after w t) = writes w). rewrite writes_after. lia. }
    revert Htr. rewrite Heq. cbn [snd]. unfold _save. rewrite Hwr.
    destruct (write_fault e (writes w)) as [f|]; cbn [trace disk _cache store after];
      rewrite <- app_assoc; intros Htr; apply app_inv_head, app_inv_head in Htr;
      injection Htr as <-; split; try done; split; done.
  - intros [v Hv]. by rewrite (ndc_to_rxcui_hit e ndc w v).
  - intros e' Hr. destruct (_cache w !! key_of ndc) as [v|] eqn:Hv.
    + by rewrite (ndc_to_rxcui_hit e ndc w v), (ndc_to_rxcui_hit e' ndc w v).
    + rewrite !ndc_to_rxcui_miss by done.
      by apply attempts_write_fault_irrelevant.
Qed.

Lemma miss_writes_whole_cache_once_witness :
  key_of "99999-9999-99" <> "" /\
  _cache Examples.w_negative !! key_of "99999-9999-99" = None /\
  _cache (ndc_to_rxcui Examples.env_one "99999-9999-99" Examples.w_negative).2
  = <[key_of "99999-9999-99" :=
        (ndc_to_rxcui Examples.env_one "99999-9999-99" Examples.w_negative).1]>
      (_cache Examples.w_negative) /\
  writes (ndc_to_rxcui Examples.env_one "99999-9999-99" Examples.w_negative).2
  = writes Examples.w_negative + 1.
Proof.
  assert (Hk : key_of "99999-9999-99" <> "") by (vm_compute; discriminate).
  assert (Hm : _cache Examples.w_negative !! key_of "99999-9999-99" = None)
    by (vm_compute; reflexivity).
  split; [exact Hk|]. split; [exact Hm|].
  destruct (proj1 (miss_writes_whole_cache_once Examples.env_one "99999-9999-99"
                     Examples.w_negative Hk) Hm) as (Hc & Hw & _).
  split; [exact Hc | exact Hw].
Defined.

(** C5 as stated fails: a resolution served from the cache performs no
    write. *)
Lemma cache_hit_triggers_no_write :
  key_of "0002-1433-80" <> "" /\
  (ndc_to_rxcui Examples.env_flaky "0002-1433-80" Examples.w_hit).1 = JStr "198440" /\
  trace (ndc_to_rxcui Examples.env_flaky "0002-1433-80" Examples.w_hit).2 = [] /\
  ~ writes Examples.w_hit
    < writes (ndc_to_rxcui Examples.env_flaky "0002-1433-80" Examples.w_hit).2.
Proof.
  split; [vm_compute; discriminate|].
  split; [vm_compute; reflexivity|].
  split; [vm_compute; reflexivity|].
  vm_compute. lia.
Qed.

(** C6, as the code has it: when the first body to arrive is an object
    whose [idGroup] is absent or an object, the resolver returns the first
    element of [rxnormId] if that is a non-empty array, and "not found" if
    it is absent, an empty array, or anything else, a string included. *)
Theorem identifier_is_first_of_array
    (e : env) (ndc : string) (w : world) (k : nat) (top g : list (string * json)) :
  key_of ndc <> "" ->
  _cache w !! key_of ndc = None ->
  k < 3 ->
  (forall i, i < k -> attempt e w i (key_of ndc) = None) ->
  remote e (gets w + k) (url_of (key_of ndc)) = Some (JObj top) ->
  default (JObj []) (member "idGroup" top) = JObj g ->
  (ndc_to_rxcui e ndc w).1 =
    match member "rxnormId" g with
    | Some (JArr (x :: _)) => x
    | _ => JNull
    end.
Proof.
  intros Hk Hmiss Hlt Hfail Hbody Hgroup.
  rewrite ndc_to_rxcui_miss by done.
  erewrite (attempts_success_at e k 3); [done | done | done |].
  unfold attempt. rewrite Hbody. cbn [mbind option_bind].
  unfold rxnormId. cbn [get]. rewrite Hgroup. cbn [get].
  by destruct (member "rxnormId" g) as [[| | | |[|x l]|]|].
Qed.

Lemma identifier_is_first_of_array_witness :
  key_of "0002-1433-80" <> "" /\
  _cache (start Missing) !! key_of "0002-1433-80" = None /\
  2 < 3 /\
  (forall i, i < 2 ->
     attempt Examples.env_flaky (start Missing) i (key_of "0002-1433-80") = None) /\
  (ndc_to_rxcui Examples.env_flaky "0002-1433-80" (start Missing)).1 = JStr "198440".
Proof.
  assert (Hk : key_of "0002-1433-80" <> "") by (vm_compute; discriminate).
  assert (Hf : forall i, i < 2 ->
     attempt Examples.env_flaky (start Missing) i (key_of "0002-1433-80") = None).
  { intros [|[|i]] Hi; [reflexivity | reflexivity | lia]. }
  split; [exact Hk|]. split; [reflexivity|]. split; [lia|]. split; [exact Hf|].
  exact (identifier_is_first_of_array Examples.env_flaky "0002-1433-80"
           (start Missing) 2
           [("idGroup", JObj [("rxnormId", JArr [JStr "198440"])])]
           [("rxnormId", JArr [JStr "198440"])]
           Hk eq_refl (Nat.lt_succ_diag_r 2) Hf eq_refl eq_refl).
Defined.

(** C6 as stated fails: an identifier sent as a string is not returned,
    the code is taken as "not found" and cached as such. *)
Lemma string_identifier_is_dropped :
  rxnormId Examples.body_string = Some JNull /\
  (ndc_to_rxcui (Examples.env_const Examples.body_string) "0002-1433-80"
     (start Missing)).1 = JNull /\
  _cache (ndc_to_rxcui (Examples.env_const Examples.body_string) "0002-1433-80"
     (start Missing)).2 !! "0002143380" = Some JNull /\
  (ndc_to_rxcui (Examples.env_const Examples.body_string) "0002-1433-80"
     (start Missing)).1 <> JStr "198440".
Proof.
  split; [reflexivity|]. split; [vm_compute; reflexivity|].
  split; [vm_compute; reflexivity|]. vm_compute. discriminate.
Qed.

(** C8: when the code is not cached, the first two attempts fail and the
    third succeeds, the resolver makes exactly three requests with a sleep
    after each failure, returns the identifier of the third response, and
    stores it with one assignment to the cache and one write of the cache
    file.  No resolution makes more than three requests. *)
Theorem third_attempt_success (e : env) (ndc : string) (w : world) (val : json) :
  key_of ndc <> "" ->
  _cache w !! key_of ndc = None ->
  attempt e w 0 (key_of ndc) = None ->
  attempt e w 1 (key_of ndc) = None ->
  attempt e w 2 (key_of ndc) = Some val ->
  let r := ndc_to_rxcui e ndc w in
  let url := url_of (key_of ndc) in
  r.1 = val /\
  _cache r.2 = <[key_of ndc := val]> (_cache w) /\
  (exists ok,
     trace r.2 =
       trace w ++ [Get url; Sleep; Get url; Sleep; Get url;
                   Write (<[key_of ndc := val]> (_cache w)) ok]) /\
  gets r.2 = gets w + 3 /\
  writes r.2 = writes w + 1 /\
  (forall ndc' w', gets (ndc_to_rxcui e ndc' w').2 <= gets w' + 3).
Proof.
  intros Hk Hmiss H0 H1 H2 r url. subst r url.
  rewrite ndc_to_rxcui_miss by done.
  rewrite (attempts_success_at e 2 3 (key_of ndc) w val); [| lia | | done].
  2:{ intros [|[|i]] Hi; [done | done | lia]. }
  cbn [fst snd].
  destruct (save_trace e (store (key_of ndc) val
              (after w (retries (url_of (key_of ndc)) 2 ++ [Get (url_of (key_of ndc))]))))
    as [ok Hok].
  rewrite save_cache. split; [done|]. split; [done|].
  assert (Htr : trace (_save e (store (key_of ndc) val
              (after w (retries (url_of (key_of ndc)) 2 ++ [Get (url_of (key_of ndc))]))))
      = trace w ++ [Get (url_of (key_of ndc)); Sleep; Get (url_of (key_of ndc)); Sleep;
                    Get (url_of (key_of ndc));
                    Write (<[key_of ndc := val]> (_cache w)) ok]).
  { rewrite Hok. cbn. by rewrite <- app_assoc. }
  split; [by exists ok|].
  unfold gets, writes. rewrite Htr, !count_app. cbn.
  split; [done|]. split; [done|].
  intros ndc' w'. apply ndc_to_rxcui_bounds.
Qed.

Lemma third_attempt_success_witness :
  key_of "0002-1433-80" <> "" /\
  _cache (start Missing) !! key_of "0002-1433-80" = None /\
  attempt Examples.env_flaky (start Missing) 0 (key_of "0002-1433-80") = None /\
  attempt Examples.env_flaky (start Missing) 1 (key_of "0002-1433-80") = None /\
  attempt Examples.env_flaky (start Missing) 2 (key_of "0002-1433-80")
    = Some (JStr "198440") /\
  (ndc_to_rxcui Examples.env_flaky "0002-1433-80" (start Missing)).1 = JStr "198440".
Proof.
  assert (Hk : key_of "0002-1433-80" <> "") by (vm_compute; discriminate).
  split; [exact Hk|]. do 4 (split; [reflexivity|]).
  exact (proj1 (third_attempt_success Examples.env_flaky "0002-1433-80"
                  (start Missing) (JStr "198440") Hk eq_refl eq_refl eq_refl eq_refl)).
Defined.

(** * Properties of the ingestion *)

Section Pipeline.
Context (e : env).

Lemma complete_false_skips r s :
  complete r = false ->
  body e r s = {| w := w s; out := out s; n_in := S (n_in s); n_out := n_out s |}.
Proof.
  unfold complete, body. intros H.
  destruct (truthy_s (contract_of r)), (truthy_s (plan_of r)),
    (PyStr.nonempty (ndc_of r)), (truthy_s (tier_of r)); done.
Qed.

Lemma complete_true_resolves r s :
  complete r = true ->
  body e r s =
    let rx := ndc_to_rxcui e (ndc_of r) (w s) in
    if truthy rx.1
    then {| w := rx.2; out := out s ++ [rule r rx.1]; n_in := S (n_in s);
            n_out := S (n_out s) |}
    else {| w := rx.2; out := out s; n_in := S (n_in s); n_out := n_out s |}.
Proof.
  unfold complete, body. intros H.
  destruct (truthy_s (contract_of r)), (truthy_s (plan_of r)),
    (PyStr.nonempty (ndc_of r)), (truthy_s (tier_of r)); try done.
  cbn. destruct (ndc_to_rxcui e (ndc_of r) (w s)) as [rx w']. cbn.
  by destruct (truthy rx).
Qed.

Lemma body_counted r s : counted s -> counted (body e r s).
Proof.
  intros [Hle (lines & Hout & Hlen)].
  destruct (complete r) eqn:Hc.
  - rewrite complete_true_resolves by done. cbn zeta.
    destruct (truthy (ndc_to_rxcui e (ndc_of r) (w s)).1).
    + split; cbn; [lia|]. exists (lines ++ [rule r (ndc_to_rxcui e (ndc_of r) (w s)).1]).
      rewrite Hout, length_app. cbn. split; [done | lia].
    + split; cbn; [lia|]. by exists lines.
  - rewrite complete_false_skips by done.
    split; cbn; [lia|]. by exists lines.
Qed.

Lemma loop_counted g : forall s res s',
  loop e g s = (res, s') -> counted s ->
  counted s' /\
  forall a b, res = Returned a b -> a = n_in s' /\ b = n_out s'.
Proof.
  induction g as [|x|r g IH]; intros s res s' Hloop Hs; cbn in Hloop.
  - injection Hloop as <- <-. split; [done|]. intros a b [= -> ->]. done.
  - injection Hloop as <- <-. split; [done|]. intros a b [=].
  - apply (IH (body e r s)); [done|]. by apply body_counted.
Qed.

End Pipeline.

(** C10: a call that returns has written at most as many rules as it has
    read rows, and the output file holds the header followed by exactly
    one line per rule written. *)
Theorem written_at_most_read
    (e : env) (input_path : input) (out_path : option (list (list json)))
    (w0 : world) (rows_read rows_written : nat) (w' : world)
    (file' : option (list (list json))) :
  ingest_to_rules e input_path out_path w0
    = (Returned rows_read rows_written, w', file') ->
  rows_written <= rows_read /\
  exists lines, file' = Some (header :: lines) /\ length lines = rows_written.
Proof.
  unfold ingest_to_rules.
  destruct (loop e (_open_formulary_rows input_path)
              {| w := w0; out := [] ++ [header]; n_in := 0; n_out := 0 |})
    as [res s] eqn:Hloop.
  intros [= -> <- <-].
  destruct (loop_counted e _ _ _ _ Hloop) as [[Hle (lines & Hout & Hlen)] Hret].
  { split; cbn; [lia|]. by exists []. }
  destruct (Hret rows_read rows_written eq_refl) as [-> ->].
  split; [done|]. exists lines. by rewrite Hout.
Qed.

Lemma written_at_most_read_witness :
  ingest_to_rules Examples.env_one (Csv Examples.three_lines) None (start Missing)
    = (Returned 3 1,
       (ingest_to_rules Examples.env_one (Csv Examples.three_lines) None
          (start Missing)).1.2,
       (ingest_to_rules Examples.env_one (Csv Examples.three_lines) None
          (start Missing)).2) /\
  1 <= 3.
Proof.
  assert (H : ingest_to_rules Examples.env_one (Csv Examples.three_lines) None
                (start Missing)
    = (Returned 3 1,
       (ingest_to_rules Examples.env_one (Csv Examples.three_lines) None
          (start Missing)).1.2,
       (ingest_to_rules Examples.env_one (Csv Examples.three_lines) None
          (start Missing)).2)) by (vm_compute; reflexivity).
  split; [exact H|].
  exact (proj1 (written_at_most_read _ _ _ _ _ _ _ _ H)).
Defined.

(** An archive without a formulary table: the call raises, but only after
    the output file has been emptied and the header written to it. *)
Lemma no_table_raises_after_header
    (e : env) (entries : list (string * table))
    (out_path : option (list (list json))) (w0 : world) :
  List.filter is_formulary (map fst entries) = [] ->
  ingest_to_rules e (Zip entries) out_path w0
    = (Raised (RuntimeError "No *formulary*.csv found inside ZIP"), w0,
       Some [header]).
Proof.
  intros H. unfold ingest_to_rules, _open_formulary_rows. rewrite H. reflexivity.
Qed.

(** C7: on an archive with no formulary table the call fails with the
    "no table" error, as the claim says, but the output file does not stay
    untouched: it now holds the header row. *)
Theorem no_table_leaves_header_in_output :
  List.filter is_formulary (map fst [("readme.txt", [] : table);
                                     ("plan_information.csv", Examples.three_lines)]) = [] /\
  ingest_to_rules Examples.env_one Examples.zip_without_table None (start Missing)
    = (Raised (RuntimeError "No *formulary*.csv found inside ZIP"),
       start Missing, Some [header]) /\
  Some [header] <> (None : option (list (list json))).
Proof.
  split; [reflexivity|]. split; [|discriminate].
  by apply no_table_raises_after_header.
Qed.

(** * Further properties *)

Import Api Notions.

(** ** Strings *)

Lemma rstrip_cons c s :
  PyStr.rstrip (String c s) =
  match PyStr.rstrip s with
  | EmptyString => if PyStr.is_space c then EmptyString else String c EmptyString
  | r => String c r
  end.
Proof. reflexivity. Qed.

Lemma rstrip_idem s : PyStr.rstrip (PyStr.rstrip s) = PyStr.rstrip s.
Proof.
  induction s as [|c s IH]; [done|]. rewrite rstrip_cons.
  destruct (PyStr.rstrip s) as [|d r] eqn:Hr.
  - destruct (PyStr.is_space c) eqn:Hc; [done|]. cbn. by rewrite Hc.
  - by rewrite rstrip_cons, IH.
Qed.

Lemma lstrip_no_lead s : no_lead (PyStr.lstrip s).
Proof.
  induction s as [|c s IH]; [done|]. cbn.
  destruct (PyStr.is_space c) eqn:Hc; [done|]. exact Hc.
Qed.

Lemma lstrip_id s : no_lead s -> PyStr.lstrip s = s.
Proof. destruct s as [|c s]; [done|]. cbn. by intros ->. Qed.

Lemma rstrip_no_lead s : no_lead s -> no_lead (PyStr.rstrip s).
Proof.
  destruct s as [|c s]; [done|]. cbn. intros Hc.
  destruct (PyStr.rstrip s); [by rewrite Hc | done].
Qed.

Lemma strip_idem s : PyStr.strip (PyStr.strip s) = PyStr.strip s.
Proof.
  unfold PyStr.strip.
  rewrite (lstrip_id (PyStr.rstrip (PyStr.lstrip s))).
  - apply rstrip_idem.
  - apply rstrip_no_lead, lstrip_no_lead.
Qed.

Lemma no_char_remove c s : no_char c (PyStr.remove_char c s).
Proof.
  induction s as [|d s IH]; [done|]. cbn.
  destruct (Ascii.eqb c d) eqn:Hcd; [done|]. by split.
Qed.

Lemma remove_char_id c s : no_char c s -> PyStr.remove_char c s = s.
Proof.
  induction s as [|d s IH]; [done|]. cbn. intros [-> Hs]. by rewrite IH.
Qed.

Lemma no_char_lstrip c s : no_char c s -> no_char c (PyStr.lstrip s).
Proof.
  induction s as [|d s IH]; [done|]. cbn. intros [Hd Hs].
  destruct (PyStr.is_space d); [by apply IH | by split].
Qed.

Lemma no_char_rstrip c s : no_char c s -> no_char c (PyStr.rstrip s).
Proof.
  induction s as [|d s IH]; [done|]. cbn. intros [Hd Hs].
  specialize (IH Hs). destruct (PyStr.rstrip s) as [|d' r].
  - destruct (PyStr.is_space d); [done | by split].
  - by split.
Qed.

Lemma no_char_strip c s : no_char c s -> no_char c (PyStr.strip s).
Proof. intros H. by apply no_char_rstrip, no_char_lstrip. Qed.

Lemma key_of_no_dash ndc : no_char "-" (key_of ndc).
Proof. apply no_char_strip, no_char_remove. Qed.

Lemma key_of_idem ndc : key_of (key_of ndc) = key_of ndc.
Proof.
  unfold key_of at 1. rewrite remove_char_id by apply key_of_no_dash.
  unfold key_of. apply strip_idem.
Qed.

Lemma key_of_normal ndc : key_of ndc <> "" -> normal_key (key_of ndc).
Proof.
  intros Hk. split; [done|]. split; [apply key_of_no_dash|].
  unfold key_of. apply strip_idem.
Qed.

(** Case mapping, character by character. *)
Lemma upper_lower_char c : PyStr.upper_char (PyStr.lower_char c) = PyStr.upper_char c.
Proof. by destruct c as [[] [] [] [] [] [] [] []]. Qed.

Lemma upper_upper_char c : PyStr.upper_char (PyStr.upper_char c) = PyStr.upper_char c.
Proof. by destruct c as [[] [] [] [] [] [] [] []]. Qed.

Lemma lower_upper_char c : PyStr.lower_char (PyStr.upper_char c) = PyStr.lower_char c.
Proof. by destruct c as [[] [] [] [] [] [] [] []]. Qed.

Lemma lower_lower_char c : PyStr.lower_char (PyStr.lower_char c) = PyStr.lower_char c.
Proof. by destruct c as [[] [] [] [] [] [] [] []]. Qed.

Lemma is_space_lower_char c : PyStr.is_space (PyStr.lower_char c) = PyStr.is_space c.
Proof. by destruct c as [[] [] [] [] [] [] [] []]. Qed.

Lemma is_space_upper_char c : PyStr.is_space (PyStr.upper_char c) = PyStr.is_space c.
Proof. by destruct c as [[] [] [] [] [] [] [] []]. Qed.

Lemma map_chars_compose f g h s :
  (forall c, f (g c) = h c) ->
  PyStr.map_chars f (PyStr.map_chars g s) = PyStr.map_chars h s.
Proof. intros H. induction s as [|c s IH]; [done|]. cbn. by rewrite H, IH. Qed.

Section MapStrip.
Context (f : ascii -> ascii) (Hf : forall c, PyStr.is_space (f c) = PyStr.is_space c).

Lemma lstrip_map s :
  PyStr.lstrip (PyStr.map_chars f s) = PyStr.map_chars f (PyStr.lstrip s).
Proof.
  induction s as [|c s IH]; [done|]. cbn. rewrite Hf.
  by destruct (PyStr.is_space c).
Qed.

Lemma rstrip_map s :
  PyStr.rstrip (PyStr.map_chars f s) = PyStr.map_chars f (PyStr.rstrip s).
Proof.
  induction s as [|c s IH]; [done|]. cbn. rewrite IH, Hf.
  destruct (PyStr.rstrip s) as [|d r]; cbn; [by destruct (PyStr.is_space c) | done].
Qed.

Lemma strip_map s :
  PyStr.strip (PyStr.map_chars f s) = PyStr.map_chars f (PyStr.strip s).
Proof. unfold PyStr.strip. by rewrite lstrip_map, rstrip_map. Qed.

End MapStrip.

Lemma lstrip_all_space a : all_space a -> PyStr.lstrip a = "".
Proof. induction a as [|c a IH]; [done|]. cbn. intros [-> Ha]. by apply IH. Qed.

Lemma rstrip_all_space a : all_space a -> PyStr.rstrip a = "".
Proof.
  induction a as [|c a IH]; [done|]. intros [Hc Ha].
  by rewrite rstrip_cons, IH, Hc.
Qed.

Lemma lstrip_app_space a s : all_space a -> PyStr.lstrip (a +:+ s) = PyStr.lstrip s.
Proof.
  induction a as [|c a IH]; [done|]. intros [Hc Ha].
  change (String c a +:+ s) with (String c (a +:+ s)).
  cbn [PyStr.lstrip]. rewrite Hc. by apply IH.
Qed.

Lemma rstrip_app_space s b : all_space b -> PyStr.rstrip (s +:+ b) = PyStr.rstrip s.
Proof.
  intros Hb. induction s as [|c s IH].
  - by apply rstrip_all_space.
  - change (String c s +:+ b) with (String c (s +:+ b)).
    by rewrite !rstrip_cons, IH.
Qed.

Lemma strip_app_space_r s b : all_space b -> PyStr.strip (s +:+ b) = PyStr.strip s.
Proof.
  intros Hb. unfold PyStr.strip. induction s as [|c s IH].
  - cbn. by rewrite lstrip_all_space.
  - change (String c s +:+ b) with (String c (s +:+ b)).
    cbn [PyStr.lstrip]. destruct (PyStr.is_space c); [exact IH|].
    change (String c (s +:+ b)) with (String c s +:+ b).
    by apply rstrip_app_space.
Qed.

Lemma strip_padded a s b :
  all_space a -> all_space b -> PyStr.strip (a +:+ s +:+ b) = PyStr.strip s.
Proof.
  intros Ha Hb. unfold PyStr.strip at 1. rewrite lstrip_app_space by done.
  by apply strip_app_space_r.
Qed.

(** ** The resolver *)

Section MoreResolution.
Context (e : env).

Lemma save_disk w :
  disk (_save e w) =
  match write_fault e (writes w) with
  | None => Holds (_cache w)
  | Some f => f
  end.
Proof. unfold _save. by destruct (write_fault e (writes w)). Qed.

Lemma save_writes w : writes (_save e w) = writes w + 1.
Proof.
  destruct (save_trace e w) as [ok Hok]. unfold writes.
  by rewrite Hok, count_app.
Qed.

Lemma save_gets w : gets (_save e w) = gets w.
Proof.
  destruct (save_trace e w) as [ok Hok]. unfold gets.
  rewrite Hok, count_app. cbn. lia.
Qed.

Lemma save_sleeps w : sleeps (_save e w) = sleeps w.
Proof.
  destruct (save_trace e w) as [ok Hok]. unfold sleeps.
  rewrite Hok, count_app. cbn. lia.
Qed.

Lemma sleeps_after w t : sleeps (after w t) = sleeps w + count is_sleep t.
Proof. apply count_app. Qed.

(** A cache miss, in full: between one and three requests, a sleep after
    each failed one, then the entry stored and the cache saved. *)
Lemma miss_world ndc w :
  key_of ndc <> "" -> _cache w !! key_of ndc = None ->
  exists k val t,
    1 <= k <= 3 /\ count is_get t = k /\ count is_write t = 0 /\
    (count is_sleep t = k \/ S (count is_sleep t) = k) /\
    ndc_to_rxcui e ndc w =
      (val, _save e (store (key_of ndc) val (after w t))).
Proof.
  intros Hk Hmiss. rewrite ndc_to_rxcui_miss by done.
  destruct (attempts_cases e 3 (key_of ndc) w) as [(k & val & Hlt & Hf & Hs) | Hall].
  - exists (S k), val, (retries (url_of (key_of ndc)) k ++ [Get (url_of (key_of ndc))]).
    rewrite !count_app, count_get_retries, count_write_retries, count_sleep_retries.
    split; [lia|]. split; [cbn; lia|]. split; [cbn; lia|].
    split; [right; cbn; lia|].
    by apply attempts_success_at.
  - exists 3, JNull, (retries (url_of (key_of ndc)) 3).
    rewrite count_get_retries, count_write_retries, count_sleep_retries.
    split; [lia|]. split; [lia|]. split; [lia|]. split; [by left|].
    by apply attempts_all_fail.
Qed.

(** What one resolution does to the counters and to the cache. *)
Lemma ndc_to_rxcui_effect ndc w :
  let w' := (ndc_to_rxcui e ndc w).2 in
  (w' = w) \/
  (key_of ndc <> "" /\ _cache w !! key_of ndc = None /\
   _cache w' = <[key_of ndc := (ndc_to_rxcui e ndc w).1]> (_cache w) /\
   writes w' = writes w + 1 /\
   gets w < gets w' <= gets w + 3 /\
   sleeps w' - sleeps w <= gets w' - gets w /\
   sleeps w <= sleeps w' /\
   disk w' = match write_fault e (writes w) with
             | None => Holds (_cache w')
             | Some f => f
             end).
Proof.
  cbn zeta.
  destruct (ndc_to_rxcui_cases e ndc w)
    as [[_ ->] | [(_ & v & _ & ->) | (Hk & Hmiss & _)]]; [by left | by left |].
  right. destruct (miss_world ndc w Hk Hmiss)
    as (k & val & t & Hk3 & Hg & Hw & Hs & ->).
  cbn [fst snd]. split; [done|]. split; [done|].
  rewrite save_cache, save_writes, save_gets, save_sleeps, save_disk.
  assert (Hwr : writes (store (key_of ndc) val (after w t)) = writes w).
  { change (writes (after w t) = writes w). rewrite writes_after. lia. }
  assert (Hge : gets (store (key_of ndc) val (after w t)) = gets w + k).
  { change (gets (after w t) = gets w + k). rewrite gets_after. lia. }
  assert (Hsl : sleeps (store (key_of ndc) val (after w t))
                = sleeps w + count is_sleep t).
  { change (sleeps (after w t) = sleeps w + count is_sleep t). apply sleeps_after. }
  rewrite Hwr, Hge, Hsl. cbn [_cache store after].
  split; [done|]. split; [lia|]. split; [lia|]. split; [lia|]. split; [lia|].
  done.
Qed.

End MoreResolution.

(** X1: an entry of the cache is permanent: no sequence of resolutions
    changes or removes it, and a code with that key keeps resolving to the
    cached value without touching the world. *)
Theorem cached_entries_are_permanent
    (e : env) (codes : list string) (w : world) (k : string) (v : json) :
  _cache w !! k = Some v ->
  let later := resolve_all e codes w in
  _cache later !! k = Some v /\
  (forall e' ndc, key_of ndc = k -> k <> "" ->
     ndc_to_rxcui e' ndc later = (or_ v JNull, later)).
Proof.
  intros Hkv later.
  assert (Hl : _cache later !! k = Some v) by (by apply resolve_all_keeps).
  split; [done|]. intros e' ndc <- Hk. by apply ndc_to_rxcui_hit.
Qed.

Lemma cached_entries_are_permanent_witness :
  _cache Examples.w_hit !! "0002143380" = Some (JStr "198440") /\
  _cache (resolve_all Examples.env_down ["1111-2222-33"; "0002-1433-80"]
            Examples.w_hit) !! "0002143380" = Some (JStr "198440").
Proof.
  assert (H : _cache Examples.w_hit !! "0002143380" = Some (JStr "198440"))
    by (vm_compute; reflexivity).
  split; [exact H|].
  exact (proj1 (cached_entries_are_permanent Examples.env_down
                  ["1111-2222-33"; "0002-1433-80"] Examples.w_hit
                  "0002143380" (JStr "198440") H)).
Defined.

Lemma ndc_to_rxcui_normal (e : env) ndc w :
  normal_keys (_cache w) -> normal_keys (_cache (ndc_to_rxcui e ndc w).2).
Proof.
  intros Hn. destruct (ndc_to_rxcui_effect e ndc w) as [-> | (Hk & _ & Hc & _)];
    [done|].
  rewrite Hc. intros k [v Hv].
  destruct (decide (key_of ndc = k)) as [<-|Hne].
  - by apply key_of_normal.
  - rewrite lookup_insert_ne in Hv by done. apply Hn. by exists v.
Qed.

(** X2: the resolver only ever adds keys that are not empty, hold no dash
    and have no whitespace at either end: a cache with such keys keeps
    such keys, whatever is resolved. *)
Theorem cache_keys_stay_normal (e : env) (codes : list string) (w : world) :
  normal_keys (_cache w) ->
  normal_keys (_cache (resolve_all e codes w)).
Proof.
  revert w. induction codes as [|ndc codes IH]; intros w Hn; [done|].
  cbn. apply IH. by apply ndc_to_rxcui_normal.
Qed.

Lemma cache_keys_stay_normal_witness :
  normal_keys (_cache (start Missing)) /\
  normal_keys (_cache (resolve_all Examples.env_one
                         [" 0002-1433-80 "; "--"; "99999-9999-99"] (start Missing))).
Proof.
  assert (H : normal_keys (_cache (start Missing))).
  { intros k [v Hv]. cbn in Hv. rewrite lookup_empty in Hv. discriminate Hv. }
  split; [exact H|].
  exact (cache_keys_stay_normal Examples.env_one
           [" 0002-1433-80 "; "--"; "99999-9999-99"] (start Missing) H).
Defined.

Lemma remove_char_app c s t :
  PyStr.remove_char c (s +:+ t) = PyStr.remove_char c s +:+ PyStr.remove_char c t.
Proof.
  induction s as [|d s IH]; [done|].
  change (String d s +:+ t) with (String d (s +:+ t)). cbn [PyStr.remove_char].
  rewrite IH. by destruct (Ascii.eqb c d).
Qed.

Lemma all_space_no_dash a : all_space a -> no_char "-" a.
Proof.
  induction a as [|c a IH]; [done|]. intros [Hc Ha]. split; [|by apply IH].
  destruct (Ascii.eqb "-" c) eqn:Heq; [|done].
  apply Ascii.eqb_eq in Heq. subst c. discriminate Hc.
Qed.

Lemma key_of_padded a ndc b :
  all_space a -> all_space b -> key_of (a +:+ ndc +:+ b) = key_of ndc.
Proof.
  intros Ha Hb. unfold key_of. rewrite !remove_char_app.
  rewrite (remove_char_id _ a), (remove_char_id _ b) by by apply all_space_no_dash.
  by apply strip_padded.
Qed.

(** X3: only the normalised key of a code matters.  Dashes anywhere and
    whitespace around a code change neither the result nor the effect of a
    resolution, so the dash-stripped code the ingestion passes and the
    code as written in the table share one cache entry. *)
Theorem dashes_and_padding_do_not_matter
    (e : env) (ndc a b : string) (w : world) :
  all_space a -> all_space b ->
  ndc_to_rxcui e (a +:+ ndc +:+ b) w = ndc_to_rxcui e ndc w /\
  ndc_to_rxcui e (PyStr.remove_char "-" ndc) w = ndc_to_rxcui e ndc w /\
  ndc_to_rxcui e (key_of ndc) w = ndc_to_rxcui e ndc w.
Proof.
  intros Ha Hb. unfold ndc_to_rxcui.
  rewrite key_of_padded by done. rewrite key_of_idem.
  replace (key_of (PyStr.remove_char "-" ndc)) with (key_of ndc); [done|].
  unfold key_of. by rewrite (remove_char_id _ _ (no_char_remove _ _)).
Qed.

Lemma dashes_and_padding_do_not_matter_witness :
  all_space "  " /\ all_space " " /\
  ndc_to_rxcui Examples.env_one ("  " +:+ "0002-1433-80" +:+ " ") (start Missing)
  = ndc_to_rxcui Examples.env_one "0002-1433-80" (start Missing).
Proof.
  assert (Ha : all_space "  ") by (repeat split).
  assert (Hb : all_space " ") by (repeat split).
  split; [exact Ha|]. split; [exact Hb|].
  exact (proj1 (dashes_and_padding_do_not_matter Examples.env_one "0002-1433-80"
                  "  " " " (start Missing) Ha Hb)).
Defined.

(** X4: when the service cannot be reached on any of the three attempts,
    the resolver sleeps after each of them, the last included, and caches
    the code as "not found"; from then on the code resolves to "not found"
    without a request, also once the service answers again. *)
Theorem outage_is_cached_as_not_found (e : env) (ndc : string) (w : world) :
  key_of ndc <> "" ->
  _cache w !! key_of ndc = None ->
  (forall i, i < 3 -> attempt e w i (key_of ndc) = None) ->
  let r := ndc_to_rxcui e ndc w in
  let url := url_of (key_of ndc) in
  r.1 = JNull /\
  (exists ok,
     trace r.2 =
       trace w ++ [Get url; Sleep; Get url; Sleep; Get url; Sleep;
                   Write (<[key_of ndc := JNull]> (_cache w)) ok]) /\
  (forall e' codes,
     let later := resolve_all e' codes r.2 in
     ndc_to_rxcui e' ndc later = (JNull, later)).
Proof.
  intros Hk Hmiss Hall r url. subst r url.
  rewrite ndc_to_rxcui_miss by done.
  rewrite (attempts_all_fail e 3 (key_of ndc) w Hall). cbn [fst snd].
  split; [done|].
  destruct (save_trace e (store (key_of ndc) JNull
              (after w (retries (url_of (key_of ndc)) 3)))) as [ok Hok].
  split.
  - exists ok. rewrite Hok. cbn. by rewrite <- app_assoc.
  - intros e' codes. cbn zeta.
    rewrite (ndc_to_rxcui_hit e' ndc _ JNull); [done | done |].
    apply resolve_all_keeps. rewrite save_cache. cbn.
    apply lookup_insert_eq.
Qed.

Lemma outage_is_cached_as_not_found_witness :
  key_of "0002-1433-80" <> "" /\
  _cache (start Missing) !! key_of "0002-1433-80" = None /\
  (forall i, i < 3 ->
     attempt Examples.env_down (start Missing) i (key_of "0002-1433-80") = None) /\
  ndc_to_rxcui Examples.env_one "0002-1433-80"
    (resolve_all Examples.env_one []
       (ndc_to_rxcui Examples.env_down "0002-1433-80" (start Missing)).2)
  = (JNull,
     resolve_all Examples.env_one []
       (ndc_to_rxcui Examples.env_down "0002-1433-80" (start Missing)).2).
Proof.
  assert (Hk : key_of "0002-1433-80" <> "") by (vm_compute; discriminate).
  assert (Hf : forall i, i < 3 ->
     attempt Examples.env_down (start Missing) i (key_of "0002-1433-80") = None)
    by (intros i _; reflexivity).
  split; [exact Hk|]. split; [reflexivity|]. split; [exact Hf|].
  exact (proj2 (proj2 (outage_is_cached_as_not_found Examples.env_down
                         "0002-1433-80" (start Missing) Hk eq_refl Hf))
           Examples.env_one []).
Defined.

Lemma or_null_idem v : or_ (or_ v JNull) JNull = or_ v JNull.
Proof. unfold or_. destruct (truthy v) eqn:Hv; [by rewrite Hv | done]. Qed.

Lemma truthy_or_null v : truthy (or_ v JNull) = truthy v.
Proof. unfold or_. by destruct (truthy v) eqn:Hv. Qed.

(** X5: resolving a code again gives the first value if that was an
    identifier, and "not found" otherwise: the second value is the first
    one with every false value turned into [None]. *)
Theorem repeated_resolution_value (e e' : env) (ndc : string) (w : world) :
  let first := ndc_to_rxcui e ndc w in
  let second := ndc_to_rxcui e' ndc first.2 in
  second.1 = or_ first.1 JNull /\
  truthy second.1 = truthy first.1.
Proof.
  intros first second.
  assert (H : second.1 = or_ first.1 JNull).
  { subst first second.
    destruct (ndc_to_rxcui_cases e ndc w)
      as [[Hk ->] | [(Hk & v & Hv & ->) | (Hk & Hmiss & _)]]; cbn [fst snd].
    - by rewrite ndc_to_rxcui_empty.
    - rewrite (ndc_to_rxcui_hit e' ndc w v) by done. cbn. by rewrite or_null_idem.
    - destruct (ndc_to_rxcui_effect e ndc w) as [Heq | (_ & _ & Hc & _)].
      + pose proof (ndc_to_rxcui_cached e ndc w Hk) as [v Hv].
        rewrite Heq in Hv. congruence.
      + rewrite (ndc_to_rxcui_hit e' ndc _ (ndc_to_rxcui e ndc w).1); [done | done |].
        rewrite Hc. apply lookup_insert_eq. }
  split; [done|]. rewrite H. apply truthy_or_null.
Qed.

Lemma rxnormId_none_iff data : rxnormId data = None <-> malformed data = true.
Proof.
  unfold rxnormId, malformed, get.
  destruct data as [| | | | |top]; try done.
  destruct (member "idGroup" top) as [[| | | | |g]|]; cbn; split; done.
Qed.

(** X6: an answer that decodes but is not an object, or whose [idGroup] is
    not an object, is handled like a failed request: three such answers
    in a row cost three requests and three sleeps and leave the code
    cached as "not found". *)
Theorem malformed_body_counts_as_failure (e : env) (ndc : string) (w : world) :
  key_of ndc <> "" ->
  _cache w !! key_of ndc = None ->
  (forall i, i < 3 -> exists body,
     remote e (gets w + i) (url_of (key_of ndc)) = Some body /\
     malformed body = true) ->
  let r := ndc_to_rxcui e ndc w in
  r.1 = JNull /\
  _cache r.2 !! key_of ndc = Some JNull /\
  gets r.2 = gets w + 3 /\
  sleeps r.2 = sleeps w + 3 /\
  writes r.2 = writes w + 1.
Proof.
  intros Hk Hmiss Hbad r. subst r.
  assert (Hall : forall i, i < 3 -> attempt e w i (key_of ndc) = None).
  { intros i Hi. destruct (Hbad i Hi) as (body & Hb & Hm).
    unfold attempt. rewrite Hb. cbn. by apply rxnormId_none_iff. }
  rewrite ndc_to_rxcui_miss by done.
  rewrite (attempts_all_fail e 3 (key_of ndc) w Hall). cbn [fst snd].
  rewrite save_cache, save_gets, save_sleeps, save_writes.
  split; [done|]. split; [cbn; apply lookup_insert_eq|].
  change (gets (after w (retries (url_of (key_of ndc)) 3)) = gets w + 3 /\
          sleeps (after w (retries (url_of (key_of ndc)) 3)) = sleeps w + 3 /\
          writes (after w (retries (url_of (key_of ndc)) 3)) + 1 = writes w + 1).
  rewrite gets_after, sleeps_after, writes_after.
  by rewrite count_get_retries, count_sleep_retries, count_write_retries, Nat.add_0_r.
Qed.

Lemma malformed_body_counts_as_failure_witness :
  key_of "0002-1433-80" <> "" /\
  _cache (start Missing) !! key_of "0002-1433-80" = None /\
  (forall i, i < 3 -> exists body,
     remote Examples.env_garbled (gets (start Missing) + i)
       (url_of (key_of "0002-1433-80")) = Some body /\
     malformed body = true) /\
  (ndc_to_rxcui Examples.env_garbled "0002-1433-80" (start Missing)).1 = JNull.
Proof.
  assert (Hk : key_of "0002-1433-80" <> "") by (vm_compute; discriminate).
  assert (Hb : forall i, i < 3 -> exists body,
     remote Examples.env_garbled (gets (start Missing) + i)
       (url_of (key_of "0002-1433-80")) = Some body /\
     malformed body = true).
  { intros i _. exists (JArr [JStr "198440"]). split; reflexivity. }
  split; [exact Hk|]. split; [reflexivity|]. split; [exact Hb|].
  exact (proj1 (malformed_body_counts_as_failure Examples.env_garbled
                  "0002-1433-80" (start Missing) Hk eq_refl Hb)).
Defined.

(** X7: a well-formed answer is final, with or without an identifier in
    it: one request, no sleep and no retry, and what lines 34-35 read from
    the body is returned and cached. *)
Theorem wellformed_body_is_final
    (e : env) (ndc : string) (w : world) (body : json) :
  key_of ndc <> "" ->
  _cache w !! key_of ndc = None ->
  remote e (gets w) (url_of (key_of ndc)) = Some body ->
  malformed body = false ->
  let r := ndc_to_rxcui e ndc w in
  rxnormId body = Some r.1 /\
  _cache r.2 = <[key_of ndc := r.1]> (_cache w) /\
  exists ok,
    trace r.2 =
      trace w ++ [Get (url_of (key_of ndc));
                  Write (<[key_of ndc := r.1]> (_cache w)) ok].
Proof.
  intros Hk Hmiss Hbody Hwf r. subst r.
  destruct (rxnormId body) as [val|] eqn:Hval.
  2:{ apply rxnormId_none_iff in Hval. congruence. }
  rewrite ndc_to_rxcui_miss by done.
  rewrite (attempts_success_at e 0 3 (key_of ndc) w val); [| lia | intros; lia |].
  2:{ unfold attempt. rewrite Nat.add_0_r, Hbody. exact Hval. }
  cbn [fst snd]. rewrite save_cache. split; [done|]. split; [done|].
  destruct (save_trace e (store (key_of ndc) val
              (after w (retries (url_of (key_of ndc)) 0 ++ [Get (url_of (key_of ndc))]))))
    as [ok Hok].
  exists ok. rewrite Hok. cbn. by rewrite <- app_assoc.
Qed.

Lemma wellformed_body_is_final_witness :
  key_of "99999-9999-99" <> "" /\
  _cache (start Missing) !! key_of "99999-9999-99" = None /\
  remote Examples.env_one (gets (start Missing)) (url_of (key_of "99999-9999-99"))
    = Some Examples.body_none /\
  malformed Examples.body_none = false /\
  rxnormId Examples.body_none
    = Some (ndc_to_rxcui Examples.env_one "99999-9999-99" (start Missing)).1.
Proof.
  assert (Hk : key_of "99999-9999-99" <> "") by (vm_compute; discriminate).
  split; [exact Hk|]. do 3 (split; [reflexivity|]).
  exact (proj1 (wellformed_body_is_final Examples.env_one "99999-9999-99"
                  (start Missing) Examples.body_none Hk eq_refl eq_refl eq_refl)).
Defined.

(** X8: the write that ends a cache miss rewrites the whole file, so when
    it succeeds the file holds exactly the cache in memory, whatever it
    held before (nothing, garbage, a stale cache); a process started on it
    begins with that cache and resolves the code without a request. *)
Theorem successful_write_round_trip (e : env) (ndc : string) (w : world) :
  key_of ndc <> "" ->
  _cache w !! key_of ndc = None ->
  write_fault e (writes w) = None ->
  let r := ndc_to_rxcui e ndc w in
  let restarted := start (disk r.2) in
  disk r.2 = Holds (_cache r.2) /\
  _cache restarted = _cache r.2 /\
  (forall e', ndc_to_rxcui e' ndc restarted = (or_ r.1 JNull, restarted)).
Proof.
  intros Hk Hmiss Hw r restarted. subst r restarted.
  destruct (ndc_to_rxcui_effect e ndc w) as [Heq | (_ & _ & Hc & _ & _ & _ & _ & Hd)].
  { pose proof (ndc_to_rxcui_cached e ndc w Hk) as [v Hv].
    rewrite Heq in Hv. congruence. }
  rewrite Hw in Hd. rewrite Hd. cbn [start load _cache].
  split; [done|]. split; [done|]. intros e'.
  apply ndc_to_rxcui_hit; [done|]. cbn. rewrite Hc. apply lookup_insert_eq.
Qed.

Lemma successful_write_round_trip_witness :
  key_of "0002-1433-80" <> "" /\
  _cache (start Unreadable) !! key_of "0002-1433-80" = None /\
  write_fault Examples.env_one (writes (start Unreadable)) = None /\
  disk (ndc_to_rxcui Examples.env_one "0002-1433-80" (start Unreadable)).2
  = Holds (_cache (ndc_to_rxcui Examples.env_one "0002-1433-80" (start Unreadable)).2).
Proof.
  assert (Hk : key_of "0002-1433-80" <> "") by (vm_compute; discriminate).
  split; [exact Hk|]. do 2 (split; [reflexivity|]).
  exact (proj1 (successful_write_round_trip Examples.env_one "0002-1433-80"
                  (start Unreadable) Hk eq_refl eq_refl)).
Defined.

(** X9: when the write that ends a cache miss fails, the call returns as
    if nothing had happened and the new entry lives in memory only: the
    file is whatever the failed write left, and the next process starts
    from that. *)
Theorem failed_write_keeps_entry_in_memory_only
    (e : env) (ndc : string) (w : world) (f : file) :
  key_of ndc <> "" ->
  _cache w !! key_of ndc = None ->
  write_fault e (writes w) = Some f ->
  let r := ndc_to_rxcui e ndc w in
  _cache r.2 !! key_of ndc = Some r.1 /\
  disk r.2 = f /\
  _cache (start (disk r.2)) = load f /\
  (forall e', ndc_to_rxcui e' ndc r.2 = (or_ r.1 JNull, r.2)).
Proof.
  intros Hk Hmiss Hw r. subst r.
  destruct (ndc_to_rxcui_effect e ndc w) as [Heq | (_ & _ & Hc & _ & _ & _ & _ & Hd)].
  { pose proof (ndc_to_rxcui_cached e ndc w Hk) as [v Hv].
    rewrite Heq in Hv. congruence. }
  rewrite Hw in Hd. rewrite Hd.
  assert (Hin : _cache (ndc_to_rxcui e ndc w).2 !! key_of ndc
                = Some (ndc_to_rxcui e ndc w).1)
    by (rewrite Hc; apply lookup_insert_eq).
  split; [done|]. split; [done|]. split; [done|].
  intros e'. by apply ndc_to_rxcui_hit.
Qed.

Lemma failed_write_keeps_entry_in_memory_only_witness :
  key_of "0002-1433-80" <> "" /\
  _cache (start Missing) !! key_of "0002-1433-80" = None /\
  write_fault Examples.env_down (writes (start Missing)) = Some Unreadable /\
  _cache (start (disk (ndc_to_rxcui Examples.env_down "0002-1433-80"
                         (start Missing)).2)) = load Unreadable.
Proof.
  assert (Hk : key_of "0002-1433-80" <> "") by (vm_compute; discriminate).
  split; [exact Hk|]. do 2 (split; [reflexivity|]).
  exact (proj1 (proj2 (proj2
    (failed_write_keeps_entry_in_memory_only Examples.env_down "0002-1433-80"
       (start Missing) Unreadable Hk eq_refl eq_refl)))).
Defined.

Lemma ndc_to_rxcui_synced (e : env) ndc w :
  (forall n, write_fault e n = None) ->
  synced w -> synced (ndc_to_rxcui e ndc w).2.
Proof.
  intros He Hs.
  destruct (ndc_to_rxcui_effect e ndc w) as [-> | (_ & _ & _ & _ & _ & _ & _ & Hd)];
    [done|].
  unfold synced. rewrite Hd, He. done.
Qed.

(** X10: in a process whose cache writes all succeed, the cache file keeps
    up with the cache in memory: after any sequence of resolutions, a
    process started on the file begins with exactly the cache this one
    ends with. *)
Theorem fault_free_process_round_trip
    (e : env) (d : file) (codes : list string) :
  (forall n, write_fault e n = None) ->
  let w' := resolve_all e codes (start d) in
  _cache (start (disk w')) = _cache w'.
Proof.
  intros He. cbn zeta.
  assert (H : forall w, synced w -> synced (resolve_all e codes w)).
  { induction codes as [|ndc codes IH]; intros w Hs; [done|].
    cbn. apply IH. by apply ndc_to_rxcui_synced. }
  apply (H (start d)). reflexivity.
Qed.

Lemma fault_free_process_round_trip_witness :
  (forall n, write_fault Examples.env_one n = None) /\
  _cache (start (disk (resolve_all Examples.env_one
                         ["0002-1433-80"; "99999-9999-99"] (start Unreadable))))
  = _cache (resolve_all Examples.env_one
              ["0002-1433-80"; "99999-9999-99"] (start Unreadable)).
Proof.
  assert (H : forall n, write_fault Examples.env_one n = None)
    by (intros n; reflexivity).
  split; [exact H|].
  exact (fault_free_process_round_trip Examples.env_one Unreadable
           ["0002-1433-80"; "99999-9999-99"] H).
Defined.

(** X11: over any sequence of resolutions, the cache file is written once
    for each entry the cache gains and never otherwise; each new entry
    costs between one and three requests, and there are never more sleeps
    than requests. *)
Theorem writes_match_new_entries (e : env) (codes : list string) (w : world) :
  let w' := resolve_all e codes w in
  exists m,
    m <= length codes /\
    size (_cache w') = size (_cache w) + m /\
    writes w' = writes w + m /\
    gets w + m <= gets w' <= gets w + 3 * m /\
    sleeps w <= sleeps w' /\
    sleeps w' - sleeps w <= gets w' - gets w.
Proof.
  cbn zeta. revert w. induction codes as [|ndc codes IH]; intros w.
  - exists 0. cbn. lia.
  - cbn [resolve_all]. destruct (IH (ndc_to_rxcui e ndc w).2)
      as (m & Hm & Hsz & Hwr & Hg & Hs1 & Hs2).
    destruct (ndc_to_rxcui_effect e ndc w)
      as [Heq | (_ & Hmiss & Hc & Hw1 & Hg1 & Hsl1 & Hsl2 & _)].
    + rewrite Heq in *. exists m. cbn [length]. lia.
    + exists (S m). cbn [length].
      rewrite Hc, map_size_insert_None in Hsz by done. lia.
Qed.

(** ** The row normaliser *)

(** X12: flag values are read without regard to case and to surrounding
    whitespace. *)
Theorem norm_bool_ignores_case_and_padding (s a b : string) :
  all_space a -> all_space b ->
  _norm_bool (Some (a +:+ s +:+ b)) = _norm_bool (Some s) /\
  _norm_bool (Some (PyStr.lower s)) = _norm_bool (Some s) /\
  _norm_bool (Some (PyStr.upper s)) = _norm_bool (Some s).
Proof.
  intros Ha Hb. unfold _norm_bool. cbn [str].
  rewrite strip_padded by done. split; [done|].
  unfold PyStr.lower, PyStr.upper.
  rewrite !strip_map by (apply is_space_lower_char || apply is_space_upper_char).
  rewrite (map_chars_compose _ _ PyStr.upper_char) by apply upper_lower_char.
  rewrite (map_chars_compose _ _ PyStr.upper_char) by apply upper_upper_char.
  done.
Qed.

Lemma norm_bool_ignores_case_and_padding_witness :
  all_space " " /\ all_space "  " /\
  _norm_bool (Some (" " +:+ "yEs" +:+ "  ")) = _norm_bool (Some "yEs").
Proof.
  assert (Ha : all_space " ") by (repeat split).
  assert (Hb : all_space "  ") by (repeat split).
  split; [exact Ha|]. split; [exact Hb|].
  exact (proj1 (norm_bool_ignores_case_and_padding "yEs" " " "  " Ha Hb)).
Defined.

Lemma fold_fields_trimmed (l : list (string * option string)) : forall m : row,
  trimmed_row m ->
  trimmed_row (foldl (fun (m : row) kv => <[PyStr.strip kv.1 := PyStr.strip <$> kv.2]> m)
                 m l).
Proof.
  induction l as [|[k v] l IH]; intros m Hm; [done|].
  cbn [foldl]. apply IH. intros k' v' Hk'. unfold row in *.
  destruct (decide (PyStr.strip k = k')) as [<-|Hne].
  - cbn in Hk'. rewrite lookup_insert_eq in Hk'. injection Hk' as <-.
    split; [apply strip_idem|]. intros s Hs.
    destruct v as [s0|]; [|done]. cbn in Hs. injection Hs as <-. apply strip_idem.
  - cbn in Hk'. rewrite lookup_insert_ne in Hk' by done. by apply Hm.
Qed.

(** X13: in every row the table locator yields, column names and string
    values carry no surrounding whitespace (stripping them again changes
    nothing), so the fields the pipeline reads are trimmed. *)
Theorem yielded_rows_are_trimmed (d : dictrow) (r : row) :
  strip_row d = Some r ->
  trimmed_row r.
Proof.
  unfold strip_row. destruct (surplus d); [done|]. intros [= <-].
  apply fold_fields_trimmed. intros k v Hk. unfold row in *.
  by rewrite lookup_empty in Hk.
Qed.

Lemma yielded_rows_are_trimmed_witness :
  strip_row {| fields := [(" NDC ", Some " 0002-1433-80 "); ("TIER", None)];
               surplus := None |}
  = Some ({[ "NDC" := Some "0002-1433-80"; "TIER" := None ]} : row) /\
  trimmed_row ({[ "NDC" := Some "0002-1433-80"; "TIER" := None ]} : row).
Proof.
  assert (H : strip_row {| fields := [(" NDC ", Some " 0002-1433-80 "); ("TIER", None)];
               surplus := None |}
    = Some ({[ "NDC" := Some "0002-1433-80"; "TIER" := None ]} : row))
    by (vm_compute; reflexivity).
  split; [exact H|].
  exact (yielded_rows_are_trimmed _ _ H).
Defined.

Lemma fold_fields_keeps (l : list (string * option string)) (k : string) :
  (forall kv, kv ∈ l -> PyStr.strip kv.1 <> k) ->
  forall m : row,
  foldl (fun (m : row) kv => <[PyStr.strip kv.1 := PyStr.strip <$> kv.2]> m) m l !! k
  = m !! k.
Proof.
  induction l as [|[k' v'] l IH]; intros Hl m; [done|].
  cbn [foldl]. rewrite IH.
  - cbn. unfold row in *. apply lookup_insert_ne. apply (Hl (k', v')). left.
  - intros kv Hkv. apply Hl. by right.
Qed.

Lemma dict_set_fresh k v (d : list (string * option string)) :
  k ∉ map fst d -> dict_set k v d = d ++ [(k, v)].
Proof.
  induction d as [|[k' v'] d IH]; [done|]. cbn. intros Hk.
  apply not_elem_of_cons in Hk as [Hne Hk].
  destruct (String.eqb k k') eqn:Heq.
  - apply String.eqb_eq in Heq. done.
  - by rewrite IH.
Qed.

Lemma dict_fold_distinct (l : list (string * option string)) : forall acc,
  NoDup (map fst (acc ++ l)) ->
  foldl (fun d kv => dict_set kv.1 kv.2 d) acc l = acc ++ l.
Proof.
  induction l as [|[k v] l IH]; intros acc Hnd; cbn.
  - by rewrite app_nil_r.
  - rewrite dict_set_fresh.
    + rewrite IH; rewrite <- app_assoc; [done | exact Hnd].
    + rewrite map_app in Hnd. apply NoDup_app in Hnd as (_ & Hdis & _).
      intros Hin. apply (Hdis k Hin). cbn. left.
Qed.

(** A header without repeated names is handed over as it is. *)
Lemma dict_items_distinct (l : list (string * option string)) :
  NoDup (map fst l) -> dict_items l = l.
Proof. intros H. unfold dict_items. by rewrite (dict_fold_distinct l []). Qed.

(** The case of a header that repeats a name: the repeated name keeps the
    place of its first column and the value of its last, so that here the
    column written with a space, which comes later in the dict, decides. *)
Example repeated_header_name_is_merged_first :
  strip_row {| fields := [("TIER", Some "1"); (" TIER", Some "2"); ("TIER", Some "3")];
               surplus := None |}
  = Some ({[ "TIER" := Some "2" ]} : row).
Proof. vm_compute. reflexivity. Qed.

(** X14: when the header of a line has no repeated name, a column is found
    in the row under its trimmed name, and of several columns whose names
    differ only in surrounding whitespace the last one is the one the row
    keeps. *)
Theorem last_column_of_a_name_wins
    (d : dictrow) (l1 l2 : list (string * option string))
    (k : string) (v : option string) :
  surplus d = None ->
  fields d = l1 ++ (k, v) :: l2 ->
  NoDup (map fst (fields d)) ->
  (forall kv, kv ∈ l2 -> PyStr.strip kv.1 <> PyStr.strip k) ->
  exists r, strip_row d = Some r /\
            r !! PyStr.strip k = Some (PyStr.strip <$> v) /\
            rget r (PyStr.strip k) = PyStr.strip <$> v.
Proof.
  intros Hs Hf Hnd Hl2. unfold strip_row.
  rewrite Hs, (dict_items_distinct _ Hnd), Hf. eexists. split; [done|].
  assert (H : foldl (fun (m : row) kv => <[PyStr.strip kv.1 := PyStr.strip <$> kv.2]> m)
                ∅ (l1 ++ (k, v) :: l2) !! PyStr.strip k
              = Some (PyStr.strip <$> v)).
  { rewrite foldl_app. cbn [foldl]. rewrite fold_fields_keeps by done.
    cbn. unfold row. apply lookup_insert_eq. }
  split; [exact H|]. unfold rget. by rewrite H.
Qed.

Lemma last_column_of_a_name_wins_witness :
  surplus (Examples.line [("TIER", "1"); (" TIER", "2"); ("NDC", "5")]) = None /\
  fields (Examples.line [("TIER", "1"); (" TIER", "2"); ("NDC", "5")])
    = [("TIER", Some "1")] ++ (" TIER", Some "2") :: [("NDC", Some "5")] /\
  NoDup (map fst (fields (Examples.line [("TIER", "1"); (" TIER", "2"); ("NDC", "5")]))) /\
  (forall kv, kv ∈ [("NDC", Some "5")] -> PyStr.strip kv.1 <> PyStr.strip " TIER") /\
  exists r, strip_row (Examples.line [("TIER", "1"); (" TIER", "2"); ("NDC", "5")])
            = Some r /\
            r !! PyStr.strip " TIER" = Some (PyStr.strip <$> Some "2") /\
            rget r (PyStr.strip " TIER") = PyStr.strip <$> Some "2".
Proof.
  assert (Hl : forall kv : string * option string,
             kv ∈ [("NDC", Some "5")] -> PyStr.strip kv.1 <> PyStr.strip " TIER").
  { intros kv Hkv. apply list_elem_of_singleton in Hkv. subst kv.
    vm_compute. discriminate. }
  assert (Hnd : NoDup (map fst (fields (Examples.line
                  [("TIER", "1"); (" TIER", "2"); ("NDC", "5")])))).
  { cbn. apply NoDup_cons_2; [|apply NoDup_cons_2; [|apply NoDup_singleton]].
    - intros H. apply elem_of_cons in H as [H | H]; [discriminate H|].
      apply list_elem_of_singleton in H. discriminate H.
    - intros H. apply list_elem_of_singleton in H. discriminate H. }
  split; [reflexivity|]. split; [reflexivity|]. split; [exact Hnd|].
  split; [exact Hl|].
  exact (last_column_of_a_name_wins
           (Examples.line [("TIER", "1"); (" TIER", "2"); ("NDC", "5")])
           [("TIER", Some "1")] [("NDC", Some "5")] " TIER" (Some "2")
           eq_refl eq_refl Hnd Hl).
Defined.

Lemma truthy_s_iff v : truthy_s v = true <-> exists s, v = Some s /\ s <> "".
Proof.
  destruct v as [s|]; cbn.
  - rewrite nonempty_true. split; [intros H; by exists s | by intros (s' & [= <-] & H)].
  - split; [done | by intros (s' & [=] & _)].
Qed.

Lemma rget_filled (r : row) k s : (rget r k = Some s /\ s <> "") <-> filled r k s.
Proof.
  unfold rget, filled. destruct (r !! k) as [[s'|]|]; cbn; split;
    intros [H Hs]; split; congruence.
Qed.

Lemma rget_blank (r : row) k : truthy_s (rget r k) = false <-> blank r k.
Proof.
  split.
  - intros Hf s Hs. apply rget_filled in Hs.
    assert (truthy_s (rget r k) = true) by (apply truthy_s_iff; by exists s).
    congruence.
  - intros Hb. destruct (truthy_s (rget r k)) eqn:Ht; [|done].
    apply truthy_s_iff in Ht as (s & Hs). by destruct (Hb s); apply rget_filled.
Qed.

Lemma or_s_chosen (r : row) k1 k2 s :
  (or_s (rget r k1) (rget r k2) = Some s /\ s <> "") <-> chosen r k1 k2 s.
Proof.
  unfold or_s, chosen. destruct (truthy_s (rget r k1)) eqn:Ht.
  - rewrite rget_filled. split; [by left|].
    intros [H | [Hb _]]; [done|]. apply rget_blank in Hb. congruence.
  - apply rget_blank in Ht. rewrite rget_filled. split; [by right|].
    intros [H | [_ H]]; [by destruct (Ht s) | done].
Qed.

Lemma truthy_or_s_chosen (r : row) k1 k2 :
  truthy_s (or_s (rget r k1) (rget r k2)) = true <-> exists s, chosen r k1 k2 s.
Proof.
  rewrite truthy_s_iff. split; intros [s Hs]; exists s; by apply or_s_chosen.
Qed.

(** X15: the fallback chains of the four required fields.  A field takes
    the value of its first column when that is a non-empty string, else
    the value of its second column when that is one; the first column
    being absent, [None] or empty all count as missing.  The code is read
    with its dashes removed, and a row is complete exactly when all four
    chains find a value and the code is more than dashes. *)
Theorem fallback_columns (r : row) :
  (forall s, (contract_of r = Some s /\ s <> "") <->
             chosen r "CONTRACT_ID" "PARENT_ORGANIZATION_CONTRACT_ID" s) /\
  (forall s, (plan_of r = Some s /\ s <> "") <-> chosen r "PLAN_ID" "PBP" s) /\
  (forall s, (tier_of r = Some s /\ s <> "") <-> chosen r "TIER" "FORMULARY_TIER" s) /\
  (forall s, chosen r "NDC" "NDC_11" s -> ndc_of r = PyStr.remove_char "-" s) /\
  (blank r "NDC" /\ blank r "NDC_11" -> ndc_of r = "") /\
  (complete r = true <->
     (exists c, chosen r "CONTRACT_ID" "PARENT_ORGANIZATION_CONTRACT_ID" c) /\
     (exists p, chosen r "PLAN_ID" "PBP" p) /\
     (exists n, chosen r "NDC" "NDC_11" n /\ PyStr.remove_char "-" n <> "") /\
     (exists t, chosen r "TIER" "FORMULARY_TIER" t)).
Proof.
  assert (Hndc : forall s, chosen r "NDC" "NDC_11" s ->
                           ndc_of r = PyStr.remove_char "-" s).
  { intros s Hs. apply or_s_chosen in Hs as [Hs Hne]. unfold ndc_of.
    rewrite Hs. cbn. apply nonempty_true in Hne. by rewrite Hne. }
  assert (Hnone : blank r "NDC" /\ blank r "NDC_11" -> ndc_of r = "").
  { intros [H1 H2]. apply rget_blank in H1, H2. unfold ndc_of, or_s.
    rewrite H1. destruct (rget r "NDC_11") as [s|]; [|done].
    cbn in H2. cbn. by rewrite H2. }
  split; [intros s; apply or_s_chosen|].
  split; [intros s; apply or_s_chosen|].
  split; [intros s; apply or_s_chosen|].
  split; [exact Hndc|]. split; [exact Hnone|].
  unfold complete. rewrite !andb_true_iff.
  unfold contract_of, plan_of, tier_of. rewrite !truthy_or_s_chosen.
  rewrite nonempty_true. split.
  - intros [[[Hc Hp] Hn] Ht]. split; [done|]. split; [done|]. split; [|done].
    destruct (truthy_s (or_s (rget r "NDC") (rget r "NDC_11"))) eqn:Hx.
    + apply truthy_or_s_chosen in Hx as [n Hx]. exists n. split; [done|].
      by rewrite <- (Hndc n Hx).
    + destruct Hn. apply Hnone. unfold or_s in Hx.
      destruct (truthy_s (rget r "NDC")) eqn:H1; [congruence|].
      split; by apply rget_blank.
  - intros (Hc & Hp & (n & Hn & Hne) & Ht). split; [|done]. split; [done|].
    by rewrite (Hndc n Hn).
Qed.

Lemma fallback_columns_witness :
  chosen ({[ "NDC" := Some ""; "NDC_11" := Some "0002-1433-80" ]} : row)
    "NDC" "NDC_11" "0002-1433-80" /\
  ndc_of ({[ "NDC" := Some ""; "NDC_11" := Some "0002-1433-80" ]} : row)
    = PyStr.remove_char "-" "0002-1433-80".
Proof.
  assert (H : chosen ({[ "NDC" := Some ""; "NDC_11" := Some "0002-1433-80" ]} : row)
                "NDC" "NDC_11" "0002-1433-80").
  { right. split.
    - intros s [Hs Hne]. vm_compute in Hs. congruence.
    - split; [vm_compute; reflexivity | discriminate]. }
  split; [exact H|].
  exact (proj1 (proj2 (proj2 (proj2 (fallback_columns _)))) _ H).
Defined.

(** ** The pipeline *)

Section MorePipeline.
Context (e : env).

Lemma loop_invariant (P : run -> Prop) :
  (forall r s, P s -> P (body e r s)) ->
  forall g s, P s -> P (loop e g s).2.
Proof.
  intros Hbody. induction g as [|x|r g IH]; intros s Hs; cbn; [done | done |].
  apply IH. by apply Hbody.
Qed.

Lemma body_n_in r s : n_in (body e r s) = S (n_in s).
Proof.
  destruct (complete r) eqn:Hc.
  - rewrite complete_true_resolves by done. cbn zeta.
    by destruct (truthy (ndc_to_rxcui e (ndc_of r) (w s)).1).
  - by rewrite complete_false_skips.
Qed.

(** The world after the body is the world after resolving the row's code,
    or the world before when the row is skipped. *)
Lemma body_world r s :
  w (body e r s) = w s \/
  (complete r = true /\ w (body e r s) = (ndc_to_rxcui e (ndc_of r) (w s)).2).
Proof.
  destruct (complete r) eqn:Hc.
  - right. split; [done|]. rewrite complete_true_resolves by done. cbn zeta.
    by destruct (truthy (ndc_to_rxcui e (ndc_of r) (w s)).1).
  - left. by rewrite complete_false_skips.
Qed.

Lemma body_keeps r s k v :
  _cache (w s) !! k = Some v -> _cache (w (body e r s)) !! k = Some v.
Proof.
  intros H. destruct (body_world r s) as [-> | [_ ->]]; [done|].
  by apply ndc_to_rxcui_keeps.
Qed.

Lemma loop_keeps g : forall s k v,
  _cache (w s) !! k = Some v -> _cache (w (loop e g s).2) !! k = Some v.
Proof.
  induction g as [|x|r g IH]; intros s k v H; cbn; [done | done |].
  apply IH. by apply body_keeps.
Qed.

Lemma rule_is_rule_line r rxcui :
  complete r = true -> truthy rxcui = true -> rule_line (rule r rxcui).
Proof.
  unfold complete. rewrite !andb_true_iff. intros [[[Hc Hp] _] Ht] Hrx.
  apply truthy_s_iff in Hc as (c & Hc & Hcne), Hp as (p & Hp & Hpne),
    Ht as (t & Ht & Htne).
  unfold rule_line, rule. rewrite Hc, Hp, Ht. cbn [str to_json].
  by repeat eexists.
Qed.

Lemma body_lines r s :
  (exists lines, out s = header :: lines /\ Forall rule_line lines) ->
  exists lines, out (body e r s) = header :: lines /\ Forall rule_line lines.
Proof.
  intros (lines & Hout & Hall).
  destruct (complete r) eqn:Hc.
  - rewrite complete_true_resolves by done. cbn zeta.
    destruct (truthy (ndc_to_rxcui e (ndc_of r) (w s)).1) eqn:Ht; cbn.
    + exists (lines ++ [rule r (ndc_to_rxcui e (ndc_of r) (w s)).1]).
      rewrite Hout. split; [done|]. apply Forall_app. split; [done|].
      apply Forall_singleton. by apply rule_is_rule_line.
    + by exists lines.
  - rewrite complete_false_skips by done. by exists lines.
Qed.

End MorePipeline.

Lemma rule_line_length l : rule_line l -> length l = 13.
Proof. by intros (c & p & rx & t & pa & st & ql & q & d & -> & _). Qed.

(** X16: whatever the input and however the call ends, the output file
    holds the header followed by well-formed rules only: thirteen cells
    as in the header, a plan key made of a non-empty contract and a
    non-empty plan, an identifier, a non-empty tier, blanks for name,
    strength, route and alternative, and the source tag. *)
Theorem every_written_line_is_a_rule
    (e : env) (input_path : input) (out_path : option (list (list json)))
    (w0 : world) :
  exists lines,
    (ingest_to_rules e input_path out_path w0).2 = Some (header :: lines) /\
    Forall rule_line lines /\
    Forall (fun l => length l = length header) lines.
Proof.
  unfold ingest_to_rules.
  pose proof (loop_invariant e
    (fun s => exists lines, out s = header :: lines /\ Forall rule_line lines)
    (body_lines e) (_open_formulary_rows input_path)
    {| w := w0; out := [] ++ [header]; n_in := 0; n_out := 0 |}) as H.
  destruct (loop e (_open_formulary_rows input_path)
              {| w := w0; out := [] ++ [header]; n_in := 0; n_out := 0 |})
    as [res s].
  destruct H as (lines & Hout & Hall); [by exists []|].
  exists lines. cbn in *. rewrite Hout. split; [done|]. split; [done|].
  eapply Forall_impl; [exact Hall|]. intros l Hl. by apply rule_line_length.
Qed.

(** ** The table locator *)

Lemma zopen_last n t pre post :
  n ∉ map fst post ->
  zopen n (pre ++ (n, t) :: post) = t.
Proof.
  intros Hn. induction pre as [|[m t'] pre IH].
  - cbn. destruct (existsb (String.eqb n) (map fst post)) eqn:Hex.
    + apply existsb_exists in Hex as (x & Hx & Heq).
      apply String.eqb_eq in Heq. subst x. destruct Hn. by apply list_elem_of_In.
    + by rewrite String.eqb_refl.
  - cbn. replace (existsb (String.eqb n) (map fst (pre ++ (n, t) :: post))) with true;
      [exact IH|].
    symmetry. apply existsb_exists. exists n. split; [|apply String.eqb_refl].
    rewrite map_app. apply in_or_app. right. by left.
Qed.

Lemma filter_none (names : list string) :
  Forall (fun n => is_formulary n = false) names ->
  List.filter is_formulary names = [].
Proof.
  induction 1 as [|n names Hn _ IH]; [done|]. cbn. by rewrite Hn.
Qed.

(** X17: in an archive, the table read is the first entry, in archive
    order, whose lower-cased name contains "formulary" and ends in ".csv";
    entries before it are passed over and entries after it are never
    opened, so ingesting the archive is ingesting that entry. *)
Theorem first_matching_entry_is_read
    (pre post : list (string * table)) (n : string) (t : table) :
  Forall (fun x => is_formulary x.1 = false) pre ->
  is_formulary n = true ->
  n ∉ map fst post ->
  _open_formulary_rows (Zip (pre ++ (n, t) :: post)) = yield_rows t /\
  (forall e out_path w0,
     ingest_to_rules e (Zip (pre ++ (n, t) :: post)) out_path w0
     = ingest_to_rules e (Csv t) out_path w0).
Proof.
  intros Hpre Hn Hpost.
  assert (H : _open_formulary_rows (Zip (pre ++ (n, t) :: post)) = yield_rows t).
  { unfold _open_formulary_rows. rewrite map_app, List.filter_app.
    rewrite filter_none by (by apply Forall_map).
    cbn. rewrite Hn. by rewrite zopen_last. }
  split; [exact H|]. intros e out_path w0. unfold ingest_to_rules. by rewrite H.
Qed.

Lemma first_matching_entry_is_read_witness :
  Forall (fun x : string * table => is_formulary x.1 = false)
    [("readme.txt", []); ("formulary notes.txt", [])] /\
  is_formulary "PUF/Basic_Drugs_FORMULARY_2024.CSV" = true /\
  ("PUF/Basic_Drugs_FORMULARY_2024.CSV"
     ∉ map fst [("old formulary.csv", [] : table)]) /\
  _open_formulary_rows
    (Zip ([("readme.txt", []); ("formulary notes.txt", [])]
          ++ ("PUF/Basic_Drugs_FORMULARY_2024.CSV", Examples.three_lines)
          :: [("old formulary.csv", [])]))
  = yield_rows Examples.three_lines.
Proof.
  assert (H1 : Forall (fun x : string * table => is_formulary x.1 = false)
                 [("readme.txt", []); ("formulary notes.txt", [])])
    by (repeat constructor).
  assert (H3 : "PUF/Basic_Drugs_FORMULARY_2024.CSV"
                 ∉ map fst [("old formulary.csv", [] : table)]).
  { intros H. apply list_elem_of_singleton in H. discriminate H. }
  split; [exact H1|]. split; [reflexivity|]. split; [exact H3|].
  exact (proj1 (first_matching_entry_is_read
                  [("readme.txt", []); ("formulary notes.txt", [])]
                  [("old formulary.csv", [])]
                  "PUF/Basic_Drugs_FORMULARY_2024.CSV" Examples.three_lines
                  H1 eq_refl H3)).
Defined.

(** X18: for an entry whose name is made of ASCII characters, whether it
    counts as the formulary table does not depend on the case of the
    name. *)
Theorem table_name_match_ignores_case (n : string) :
  ascii_text n ->
  is_formulary (PyStr.upper n) = is_formulary n /\
  is_formulary (PyStr.lower n) = is_formulary n.
Proof.
  intros _. unfold is_formulary, PyStr.lower, PyStr.upper.
  rewrite (map_chars_compose _ _ PyStr.lower_char) by apply lower_upper_char.
  rewrite (map_chars_compose _ _ PyStr.lower_char) by apply lower_lower_char.
  done.
Qed.

Lemma table_name_match_ignores_case_witness :
  ascii_text "Formulary.CSV" /\
  is_formulary (PyStr.upper "Formulary.CSV") = is_formulary "Formulary.CSV".
Proof.
  assert (H : ascii_text "Formulary.CSV") by (cbn; repeat (split; [vm_compute; lia|]); exact I).
  split; [exact H|].
  exact (proj1 (table_name_match_ignores_case "Formulary.CSV" H)).
Defined.

(** ** Runs *)

Section Runs.
Context (e : env).

Lemma loop_fits t : forall s,
  fits_header t ->
  exists s', loop e (yield_rows t) s = (Returned (n_in s') (n_out s'), s') /\
             n_in s' = n_in s + length t.
Proof.
  induction t as [|d t IH]; intros s Hfit.
  - exists s. cbn. split; [done | lia].
  - apply Forall_cons in Hfit as [Hd Ht]. cbn [yield_rows]. unfold strip_row.
    rewrite Hd. cbn [loop].
    destruct (IH (body e (foldl (fun (m : row) kv =>
                                   <[PyStr.strip kv.1 := PyStr.strip <$> kv.2]> m)
                                ∅ (dict_items (fields d))) s) Ht) as (s' & Hl & Hn).
    exists s'. split; [exact Hl|]. rewrite Hn, body_n_in. cbn [length]. lia.
Qed.

Lemma loop_surplus pre d post : forall s,
  fits_header pre -> surplus d <> None ->
  exists s', loop e (yield_rows pre) s = (Returned (n_in s') (n_out s'), s') /\
             loop e (yield_rows (pre ++ d :: post)) s = (Raised AttributeError, s').
Proof.
  induction pre as [|d0 pre IH]; intros s Hfit Hd.
  - exists s. cbn. unfold strip_row. by destruct (surplus d).
  - apply Forall_cons in Hfit as [Hd0 Hpre].
    change ((d0 :: pre) ++ d :: post) with (d0 :: (pre ++ d :: post)).
    cbn [yield_rows]. unfold strip_row. rewrite Hd0. cbn [loop].
    by apply IH.
Qed.

End Runs.

(** X20: a line with more values than the header has columns ends the
    run with an [AttributeError].  The lines before it have been handled
    as usual and their rules stay in the output file, the world is as they
    left it, the counts are lost, and nothing after the line is read. *)
Theorem surplus_line_aborts_run
    (e : env) (pre post : table) (d : dictrow)
    (out_path : option (list (list json))) (w0 : world) :
  fits_header pre ->
  surplus d <> None ->
  exists rows_written w' file',
    ingest_to_rules e (Csv pre) out_path w0
    = (Returned (length pre) rows_written, w', file') /\
    ingest_to_rules e (Csv (pre ++ d :: post)) out_path w0
    = (Raised AttributeError, w', file').
Proof.
  intros Hfit Hd. unfold ingest_to_rules, _open_formulary_rows.
  destruct (loop_surplus e pre d post
              {| w := w0; out := [] ++ [header]; n_in := 0; n_out := 0 |} Hfit Hd)
    as (s' & H1 & H2).
  destruct (loop_fits e pre {| w := w0; out := [] ++ [header]; n_in := 0; n_out := 0 |}
              Hfit) as (s'' & H3 & Hn).
  rewrite H1 in H3. injection H3 as _ _ <-. rewrite H1, H2. cbn in Hn. rewrite Hn.
  by eexists _, _, _.
Qed.

Lemma surplus_line_aborts_run_witness :
  fits_header [Examples.line [("CONTRACT_ID", "H1"); ("PLAN_ID", "001");
                              ("NDC", "0002-1433-80"); ("TIER", "2")]] /\
  surplus {| fields := [("CONTRACT_ID", Some "H1")]; surplus := Some ["x"] |} <> None /\
  exists rows_written w' file',
    ingest_to_rules Examples.env_one
      (Csv [Examples.line [("CONTRACT_ID", "H1"); ("PLAN_ID", "001");
                           ("NDC", "0002-1433-80"); ("TIER", "2")]])
      None (start Missing)
    = (Returned 1 rows_written, w', file') /\
    ingest_to_rules Examples.env_one
      (Csv ([Examples.line [("CONTRACT_ID", "H1"); ("PLAN_ID", "001");
                            ("NDC", "0002-1433-80"); ("TIER", "2")]]
            ++ {| fields := [("CONTRACT_ID", Some "H1")]; surplus := Some ["x"] |}
            :: Examples.three_lines))
      None (start Missing)
    = (Raised AttributeError, w', file').
Proof.
  assert (H1 : fits_header [Examples.line [("CONTRACT_ID", "H1"); ("PLAN_ID", "001");
                              ("NDC", "0002-1433-80"); ("TIER", "2")]])
    by (repeat constructor).
  assert (H2 : surplus {| fields := [("CONTRACT_ID", Some "H1")];
                          surplus := Some ["x"] |} <> None) by discriminate.
  split; [exact H1|]. split; [exact H2|].
  exact (surplus_line_aborts_run Examples.env_one _ Examples.three_lines _ None
           (start Missing) H1 H2).
Defined.

Section Replay.
Context (e : env).

(** The body, seen from any cache that contains the cache it leaves. *)
Lemma body_cached_line r s (c : gmap string json) :
  (forall k v, _cache (w (body e r s)) !! k = Some v -> c !! k = Some v) ->
  out (body e r s) = out s ++ cached_line c r /\
  n_out (body e r s) = length (cached_line c r) + n_out s.
Proof.
  intros Hc. unfold cached_line. destruct (complete r) eqn:Hcomp.
  2:{ rewrite complete_false_skips by done. cbn. by rewrite app_nil_r. }
  revert Hc. rewrite complete_true_resolves by done. cbn zeta. cbn [andb].
  destruct (ndc_to_rxcui_cases e (ndc_of r) (w s))
    as [[Hk Heq] | [(Hk & v & Hv & Heq) | (Hk & Hmiss & _)]].
  - rewrite Heq. cbn. apply nonempty_false in Hk. rewrite Hk.
    intros _. by rewrite app_nil_r.
  - rewrite Heq. cbn [fst snd]. rewrite truthy_or_null.
    apply nonempty_true in Hk. rewrite Hk.
    destruct (truthy v) eqn:Ht; cbn; intros Hc; rewrite (Hc _ _ Hv), Ht.
    + unfold or_. by rewrite Ht.
    + by rewrite app_nil_r.
  - destruct (ndc_to_rxcui_effect e (ndc_of r) (w s)) as [Hsame | (_ & _ & Hins & _)].
    { pose proof (ndc_to_rxcui_cached e (ndc_of r) (w s) Hk) as [v Hv].
      rewrite Hsame in Hv. congruence. }
    apply nonempty_true in Hk. rewrite Hk.
    destruct (truthy (ndc_to_rxcui e (ndc_of r) (w s)).1) eqn:Ht; cbn; intros Hc;
      rewrite (Hc (key_of (ndc_of r)) (ndc_to_rxcui e (ndc_of r) (w s)).1),
        ?Ht; try (rewrite Hins; apply lookup_insert_eq).
    + done.
    + by rewrite app_nil_r.
Qed.

(** The body, when the cache already knows the row's code. *)
Lemma body_covered r s :
  covers (_cache (w s)) [r] ->
  body e r s =
  {| w := w s; out := out s ++ cached_line (_cache (w s)) r; n_in := S (n_in s);
     n_out := length (cached_line (_cache (w s)) r) + n_out s |}.
Proof.
  intros Hcov. unfold cached_line. destruct (complete r) eqn:Hcomp.
  2:{ rewrite complete_false_skips by done. cbn. by rewrite app_nil_r. }
  rewrite complete_true_resolves by done. cbn zeta. cbn [andb].
  destruct (decide (key_of (ndc_of r) = "")) as [Hk|Hk].
  - rewrite ndc_to_rxcui_empty by done. cbn. apply nonempty_false in Hk.
    rewrite Hk. by rewrite app_nil_r.
  - destruct (Hcov r) as [v Hv]; [by left | done | done |].
    rewrite (ndc_to_rxcui_hit e (ndc_of r) (w s) v) by done. cbn [fst snd].
    rewrite truthy_or_null, Hv. apply nonempty_true in Hk. rewrite Hk.
    destruct (truthy v) eqn:Ht; cbn.
    + unfold or_. by rewrite Ht.
    + by rewrite app_nil_r.
Qed.

Lemma loop_covered g : forall s,
  covers (_cache (w s)) (yielded g) ->
  loop e g s = replay (_cache (w s)) g s.
Proof.
  induction g as [|x|r g IH]; intros s Hcov; [done | done |].
  cbn [loop replay]. rewrite body_covered.
  - apply (IH {| w := w s; out := out s ++ cached_line (_cache (w s)) r;
                 n_in := S (n_in s);
                 n_out := length (cached_line (_cache (w s)) r) + n_out s |}).
    intros r' Hr'. apply Hcov. cbn. by right.
  - intros r' Hr'. apply list_elem_of_singleton in Hr'. subst r'.
    apply Hcov. cbn. by left.
Qed.

Lemma loop_replay g : forall s (c : gmap string json) (wx : world),
  (forall k v, _cache (w (loop e g s).2) !! k = Some v -> c !! k = Some v) ->
  replay c g {| w := wx; out := out s; n_in := n_in s; n_out := n_out s |}
  = ((loop e g s).1,
     {| w := wx; out := out (loop e g s).2; n_in := n_in (loop e g s).2;
        n_out := n_out (loop e g s).2 |}).
Proof.
  induction g as [|x|r g IH]; intros s c wx Hc; [done | done |].
  cbn [loop replay] in *. cbn [w out n_in n_out].
  destruct (body_cached_line r s c) as [Ho Hn].
  { intros k v Hkv. apply Hc. by apply loop_keeps. }
  rewrite <- Ho, <- Hn, <- (body_n_in e r s). by apply IH.
Qed.

Lemma loop_covers g : forall s,
  covers (_cache (w (loop e g s).2)) (yielded g).
Proof.
  induction g as [|x|r g IH]; intros s r' Hr'; cbn in Hr';
    [by apply elem_of_nil in Hr' | by apply elem_of_nil in Hr' |].
  cbn [loop]. apply elem_of_cons in Hr' as [-> | Hr']; [|by apply IH].
  intros Hcomp Hk.
  destruct (body_world e r s) as [Hsame | [_ Hw]].
  - rewrite complete_true_resolves in Hsame by done. cbn zeta in Hsame.
    assert (Hw : (ndc_to_rxcui e (ndc_of r) (w s)).2 = w s).
    { by destruct (truthy (ndc_to_rxcui e (ndc_of r) (w s)).1). }
    destruct (ndc_to_rxcui_cached e (ndc_of r) (w s) Hk) as [v Hv].
    exists v. apply loop_keeps.
    rewrite complete_true_resolves by done. cbn zeta.
    by destruct (truthy (ndc_to_rxcui e (ndc_of r) (w s)).1).
  - destruct (ndc_to_rxcui_cached e (ndc_of r) (w s) Hk) as [v Hv].
    exists v. apply loop_keeps. by rewrite Hw.
Qed.

End Replay.

(** X21: ingesting the same input again in the same process gives the
    same result, the same counts and the same output file, and is served
    from the cache alone: the second run makes no request, sleeps never,
    writes nothing to the cache file and leaves the cache as it was,
    whatever the service would answer by then. *)
Theorem reingestion_is_served_from_cache
    (e e' : env) (input_path : input)
    (out_path out_path' : option (list (list json))) (w0 : world) :
  let first := ingest_to_rules e input_path out_path w0 in
  ingest_to_rules e' input_path out_path' first.1.2 = first.
Proof.
  cbn zeta. unfold ingest_to_rules.
  pose proof (loop_covers e (_open_formulary_rows input_path)
                {| w := w0; out := [] ++ [header]; n_in := 0; n_out := 0 |}) as Hcov.
  pose proof (loop_replay e (_open_formulary_rows input_path)
                {| w := w0; out := [] ++ [header]; n_in := 0; n_out := 0 |}) as Hrep.
  destruct (loop e (_open_formulary_rows input_path)
              {| w := w0; out := [] ++ [header]; n_in := 0; n_out := 0 |})
    as [res s'].
  cbn [fst snd] in *.
  rewrite loop_covered by exact Hcov. cbn [w].
  specialize (Hrep (_cache (w s')) (w s') (fun k v H => H)).
  cbn [out n_in n_out] in Hrep. rewrite Hrep. by destruct s'.
Qed.

Section Budget.
Context (e : env) (w0 : world).

(** The counters of a run, relative to the world it started in. *)
Lemma body_budget r s :
  (exists m, m <= n_in s /\
     size (_cache (w s)) = size (_cache w0) + m /\
     writes (w s) = writes w0 + m /\
     gets w0 + m <= gets (w s) <= gets w0 + 3 * m) ->
  exists m, m <= n_in (body e r s) /\
     size (_cache (w (body e r s))) = size (_cache w0) + m /\
     writes (w (body e r s)) = writes w0 + m /\
     gets w0 + m <= gets (w (body e r s)) <= gets w0 + 3 * m.
Proof.
  intros (m & Hm & Hsz & Hwr & Hg). rewrite body_n_in.
  destruct (body_world e r s) as [-> | [_ ->]]; [exists m; lia|].
  destruct (ndc_to_rxcui_effect e (ndc_of r) (w s))
    as [-> | (_ & Hmiss & Hc & Hw1 & Hg1 & _)]; [exists m; lia|].
  exists (S m). rewrite Hc, map_size_insert_None by done. lia.
Qed.

End Budget.

(** X22: a run that returns has written the cache file once for each
    entry the cache gained, has gained at most one entry per row read,
    and has made between one and three requests for each new entry and
    none otherwise. *)
Theorem run_request_budget
    (e : env) (input_path : input) (out_path : option (list (list json)))
    (w0 : world) (rows_read rows_written : nat) (w' : world)
    (file' : option (list (list json))) :
  ingest_to_rules e input_path out_path w0
    = (Returned rows_read rows_written, w', file') ->
  exists m,
    m <= rows_read /\
    size (_cache w') = size (_cache w0) + m /\
    writes w' = writes w0 + m /\
    gets w0 + m <= gets w' <= gets w0 + 3 * m.
Proof.
  unfold ingest_to_rules.
  pose proof (loop_invariant e _ (body_budget e w0) (_open_formulary_rows input_path)
                {| w := w0; out := [] ++ [header]; n_in := 0; n_out := 0 |}) as H.
  destruct (loop e (_open_formulary_rows input_path)
              {| w := w0; out := [] ++ [header]; n_in := 0; n_out := 0 |})
    as [res s] eqn:Hloop.
  intros [= -> <- _].
  destruct (loop_counted e _ _ _ _ Hloop) as [_ Hret].
  { split; cbn; [lia|]. by exists []. }
  destruct (Hret rows_read rows_written eq_refl) as [-> _].
  apply H. exists 0. cbn. lia.
Qed.

Lemma run_request_budget_witness :
  ingest_to_rules Examples.env_one (Csv Examples.three_lines) None (start Missing)
    = (Returned 3 1,
       (ingest_to_rules Examples.env_one (Csv Examples.three_lines) None
          (start Missing)).1.2,
       (ingest_to_rules Examples.env_one (Csv Examples.three_lines) None
          (start Missing)).2) /\
  exists m,
    m <= 3 /\
    size (_cache (ingest_to_rules Examples.env_one (Csv Examples.three_lines) None
                    (start Missing)).1.2)
      = size (_cache (start Missing)) + m /\
    writes (ingest_to_rules Examples.env_one (Csv Examples.three_lines) None
              (start Missing)).1.2 = writes (start Missing) + m /\
    gets (start Missing) + m
      <= gets (ingest_to_rules Examples.env_one (Csv Examples.three_lines) None
                 (start Missing)).1.2
      <= gets (start Missing) + 3 * m.
Proof.
  assert (H : ingest_to_rules Examples.env_one (Csv Examples.three_lines) None
                (start Missing)
    = (Returned 3 1,
       (ingest_to_rules Examples.env_one (Csv Examples.three_lines) None
          (start Missing)).1.2,
       (ingest_to_rules Examples.env_one (Csv Examples.three_lines) None
          (start Missing)).2)) by (vm_compute; reflexivity).
  split; [exact H|].
  exact (run_request_budget _ _ _ _ _ _ _ _ H).
Defined.

(** ** The admin trigger *)

(** X23: a request without the right key, or for a path where nothing
    exists, is turned away before anything happens: no ingestion, no
    request to the service, and the rules file as it was.  The key that
    counts is [settings.admin_key], or "dev" when that is unset or empty;
    a request without the header never passes. *)
Theorem rejected_request_changes_nothing
    (cfg : settings) (e : env) (file_path : option input)
    (x_admin_key : option string) (data_path : option (list (list json)))
    (w0 : world) :
  let r := ingest_local cfg e file_path x_admin_key data_path w0 in
  (x_admin_key <> Some (or_str (admin_key cfg) "dev") ->
     r = (HTTPException 401 "unauthorized", w0, data_path)) /\
  (x_admin_key = Some (or_str (admin_key cfg) "dev") -> file_path = None ->
     r = (HTTPException 400 "file not found", w0, data_path)) /\
  (forall code detail, r.1.1 = HTTPException code detail ->
     r.1.2 = w0 /\ r.2 = data_path /\
     (x_admin_key <> Some (or_str (admin_key cfg) "dev") \/ file_path = None)) /\
  (x_admin_key = None -> r.1.1 = HTTPException 401 "unauthorized") /\
  (admin_key cfg = None \/ admin_key cfg = Some "" ->
     r.1.1 <> HTTPException 401 "unauthorized" -> x_admin_key = Some "dev").
Proof.
  cbn zeta. unfold ingest_local.
  destruct (bool_decide (x_admin_key = Some (or_str (admin_key cfg) "dev"))) eqn:Hkey.
  - apply bool_decide_eq_true in Hkey. cbn [negb].
    split; [done|]. split; [by intros _ ->|]. split.
    + intros code detail. destruct file_path as [inp|]; [|by intros; auto].
      destruct (ingest_to_rules e inp data_path w0) as [[[a b|x] w1] f]; done.
    + split; [intros ->; done|].
      intros Hcfg _. rewrite Hkey. by destruct Hcfg as [-> | ->].
  - apply bool_decide_eq_false in Hkey. cbn [negb].
    split; [done|]. split; [done|]. split; [by intros; auto|].
    split; [done|]. by intros _ [].
Qed.

Lemma rejected_request_changes_nothing_witness :
  Some "guess" <> Some (or_str (admin_key Examples.cfg_unset) "dev") /\
  ingest_local Examples.cfg_unset Examples.env_one
    (Some (Csv Examples.three_lines)) (Some "guess") (Some [header]) (start Missing)
  = (HTTPException 401 "unauthorized", start Missing, Some [header]).
Proof.
  assert (H : Some "guess" <> Some (or_str (admin_key Examples.cfg_unset) "dev"))
    by discriminate.
  split; [exact H|].
  exact (proj1 (rejected_request_changes_nothing Examples.cfg_unset Examples.env_one
                  (Some (Csv Examples.three_lines)) (Some "guess") (Some [header])
                  (start Missing)) H).
Defined.

(** X24: an authorised request for an archive without a formulary table
    ends with the [RuntimeError] of the table locator passing through the
    handler, [reindex] is not reached, and the rules file at
    [settings.data_path] is left holding the header only, whatever rules
    it held before. *)
Theorem failed_ingestion_overwrites_rules_file
    (cfg : settings) (e : env) (entries : list (string * table))
    (data_path : option (list (list json))) (w0 : world) :
  List.filter is_formulary (map fst entries) = [] ->
  ingest_local cfg e (Some (Zip entries)) (Some (or_str (admin_key cfg) "dev"))
    data_path w0
  = (Propagated (RuntimeError "No *formulary*.csv found inside ZIP"), w0,
     Some [header]).
Proof.
  intros H. unfold ingest_local. rewrite bool_decide_eq_true_2 by done. cbn [negb].
  by rewrite no_table_raises_after_header.
Qed.

Lemma failed_ingestion_overwrites_rules_file_witness :
  List.filter is_formulary
    (map fst [("readme.txt", [] : table); ("plan_information.csv", Examples.three_lines)])
  = [] /\
  ingest_local Examples.cfg_unset Examples.env_one
    (Some (Zip [("readme.txt", []); ("plan_information.csv", Examples.three_lines)]))
    (Some (or_str (admin_key Examples.cfg_unset) "dev"))
    (Some [header; rule Examples.row_ok (JStr "198440")]) (start Missing)
  = (Propagated (RuntimeError "No *formulary*.csv found inside ZIP"), start Missing,
     Some [header]).
Proof.
  split; [reflexivity|].
  exact (failed_ingestion_overwrites_rules_file Examples.cfg_unset Examples.env_one
           [("readme.txt", []); ("plan_information.csv", Examples.three_lines)]
           (Some [header; rule Examples.row_ok (JStr "198440")]) (start Missing)
           eq_refl).
Defined.

(** X25: a request that is answered with a dict was authorised, named an
    existing file, and the ingestion returned.  The dict carries the two
    counts of that ingestion under "ingested_rows" and "kept_rows", over
    anything [reindex] reports under these names, and everything else
    [reindex] reports on the new rules file; kept never exceeds
    ingested. *)
Theorem response_carries_the_counts
    (cfg : settings) (e : env) (file_path : option input)
    (x_admin_key : option string) (data_path : option (list (list json)))
    (w0 w1 : world) (body : gmap string json)
    (file' : option (list (list json))) :
  ingest_local cfg e file_path x_admin_key data_path w0 = (Ok body, w1, file') ->
  x_admin_key = Some (or_str (admin_key cfg) "dev") /\
  exists inp rows_read rows_written,
    file_path = Some inp /\
    ingest_to_rules e inp data_path w0
      = (Returned rows_read rows_written, w1, file') /\
    body !! "ingested_rows" = Some (JNum (Z.of_nat rows_read)) /\
    body !! "kept_rows" = Some (JNum (Z.of_nat rows_written)) /\
    rows_written <= rows_read /\
    (forall k, k <> "ingested_rows" -> k <> "kept_rows" ->
               body !! k = reindex cfg file' !! k).
Proof.
  unfold ingest_local.
  destruct (bool_decide (x_admin_key = Some (or_str (admin_key cfg) "dev"))) eqn:Hkey;
    cbn [negb]; [|done].
  apply bool_decide_eq_true in Hkey.
  destruct file_path as [inp|]; [|done].
  destruct (ingest_to_rules e inp data_path w0) as [[[a b|x] w2] f] eqn:Hing; [|done].
  intros [= <- <- <-]. split; [done|]. exists inp, a, b.
  split; [done|]. split; [done|].
  assert (Hle : b <= a).
  { revert Hing. unfold ingest_to_rules.
    destruct (loop e (_open_formulary_rows inp)
                {| w := w0; out := [] ++ [header]; n_in := 0; n_out := 0 |})
      as [res s] eqn:Hloop.
    intros [= -> <- <-].
    destruct (loop_counted e _ _ _ _ Hloop) as [[Hle _] Hret].
    { split; cbn; [lia|]. by exists []. }
    by destruct (Hret a b eq_refl) as [-> ->]. }
  split; [|split; [|split; [exact Hle|]]].
  - apply lookup_union_Some_l. apply lookup_insert_eq.
  - apply lookup_union_Some_l. rewrite lookup_insert_ne by done.
    apply lookup_insert_eq.
  - intros k H1 H2. apply lookup_union_r.
    rewrite lookup_insert_ne by done. by apply lookup_singleton_ne.
Qed.

Lemma response_carries_the_counts_witness :
  ingest_local Examples.cfg_unset Examples.env_one (Some (Csv Examples.three_lines))
    (Some "dev") None (start Missing)
  = (Ok {[ "ingested_rows" := JNum 3; "kept_rows" := JNum 1; "indexed" := JNum 2 ]},
     (ingest_to_rules Examples.env_one (Csv Examples.three_lines) None
        (start Missing)).1.2,
     (ingest_to_rules Examples.env_one (Csv Examples.three_lines) None
        (start Missing)).2) /\
  Some "dev" = Some (or_str (admin_key Examples.cfg_unset) "dev").
Proof.
  assert (H : ingest_local Examples.cfg_unset Examples.env_one
                (Some (Csv Examples.three_lines)) (Some "dev") None (start Missing)
    = (Ok {[ "ingested_rows" := JNum 3; "kept_rows" := JNum 1; "indexed" := JNum 2 ]},
       (ingest_to_rules Examples.env_one (Csv Examples.three_lines) None
          (start Missing)).1.2,
       (ingest_to_rules Examples.env_one (Csv Examples.three_lines) None
          (start Missing)).2)) by (vm_compute; reflexivity).
  split; [exact H|].
  exact (proj1 (response_carries_the_counts _ _ _ _ _ _ _ _ _ H)).
Defined.

(** ** The two claims on rows, over the columns of the row *)

Lemma required_fields (r : row) c p n t :
  required r c p n t ->
  contract_of r = Some c /\ c <> "" /\ plan_of r = Some p /\ p <> "" /\
  tier_of r = Some t /\ t <> "" /\
  ndc_of r = PyStr.remove_char "-" n /\ complete r = true.
Proof.
  intros (Hc & Hp & Hn & Hne & Ht).
  apply or_s_chosen in Hc as [Hc Hc'], Hp as [Hp Hp'], Hn as [Hn Hn'],
    Ht as [Ht Ht'].
  assert (Hndc : ndc_of r = PyStr.remove_char "-" n).
  { unfold ndc_of. rewrite Hn. cbn. apply nonempty_true in Hn'. by rewrite Hn'. }
  repeat (split; [done|]).
  unfold complete, contract_of, plan_of, tier_of. rewrite Hc, Hp, Ht, Hndc. cbn.
  apply nonempty_true in Hc', Hp', Ht', Hne. by rewrite Hc', Hp', Ht', Hne.
Qed.

Lemma complete_required (r : row) :
  complete r = true -> exists c p n t, required r c p n t.
Proof.
  unfold complete. rewrite !andb_true_iff. intros [[[Hc Hp] Hn] Ht].
  apply truthy_or_s_chosen in Hc as [c Hc], Hp as [p Hp], Ht as [t Ht].
  destruct (truthy_s (or_s (rget r "NDC") (rget r "NDC_11"))) eqn:Hx.
  - apply truthy_or_s_chosen in Hx as [n Hx]. exists c, p, n, t.
    split; [done|]. split; [done|]. split; [done|]. split; [|done].
    apply nonempty_true in Hn. apply or_s_chosen in Hx as [Hx Hx'].
    unfold ndc_of in Hn. rewrite Hx in Hn. cbn in Hn.
    apply nonempty_true in Hx'. by rewrite Hx' in Hn.
  - exfalso. apply nonempty_true in Hn. apply Hn. unfold ndc_of.
    destruct (or_s (rget r "NDC") (rget r "NDC_11")) as [x|]; [|done].
    cbn in Hx. cbn. by rewrite Hx.
Qed.

(** C1: the body of the loop counts every row as read.  It writes a rule,
    and counts it as written, if and only if the row's columns give a
    contract, a plan, a code and a tier, each taken from its first column
    or, when that is missing or empty, from its fallback column, the code
    is not empty once its dashes are removed, and that code resolves to an
    identifier; the rule then carries the plan key, the identifier and the
    tier so found.  A row whose code does not resolve is read, not written,
    and leaves no line; a row with a missing field is read, not written,
    leaves no line and does not reach the resolver.  A run applies this
    body to every row it is given, in order. *)
Theorem rule_emitted_iff_complete_and_resolved (e : env) (r : row) (s : run) :
  let s' := body e r s in
  (forall rest, loop e (Yield r rest) s = loop e rest s') /\
  n_in s' = S (n_in s) /\
  ((exists l, out s' = out s ++ [l]) <->
   exists c p n t,
     required r c p n t /\
     truthy (ndc_to_rxcui e (PyStr.remove_char "-" n) (w s)).1 = true) /\
  (forall c p n t, required r c p n t ->
     let rx := ndc_to_rxcui e (PyStr.remove_char "-" n) (w s) in
     w s' = rx.2 /\
     (truthy rx.1 = true ->
        n_out s' = S (n_out s) /\ out s' = out s ++ [rule r rx.1] /\
        rule r rx.1 !! 0 = Some (JStr (c +:+ "-" +:+ p)) /\
        rule r rx.1 !! 1 = Some rx.1 /\
        rule r rx.1 !! 5 = Some (JStr t)) /\
     (truthy rx.1 = false -> n_out s' = n_out s /\ out s' = out s)) /\
  ((forall c p n t, ~ required r c p n t) ->
     w s' = w s /\ n_out s' = n_out s /\ out s' = out s).
Proof.
  cbn zeta. split; [done|]. split; [apply body_n_in|].
  assert (Hno : forall l : list json, out s <> out s ++ [l]).
  { intros l H. apply (f_equal length) in H. rewrite length_app in H. cbn in H. lia. }
  assert (Hreq : forall c p n t, required r c p n t ->
     w (body e r s) = (ndc_to_rxcui e (PyStr.remove_char "-" n) (w s)).2 /\
     (truthy (ndc_to_rxcui e (PyStr.remove_char "-" n) (w s)).1 = true ->
        n_out (body e r s) = S (n_out s) /\
        out (body e r s)
          = out s ++ [rule r (ndc_to_rxcui e (PyStr.remove_char "-" n) (w s)).1] /\
        rule r (ndc_to_rxcui e (PyStr.remove_char "-" n) (w s)).1 !! 0
          = Some (JStr (c +:+ "-" +:+ p)) /\
        rule r (ndc_to_rxcui e (PyStr.remove_char "-" n) (w s)).1 !! 1
          = Some (ndc_to_rxcui e (PyStr.remove_char "-" n) (w s)).1 /\
        rule r (ndc_to_rxcui e (PyStr.remove_char "-" n) (w s)).1 !! 5
          = Some (JStr t)) /\
     (truthy (ndc_to_rxcui e (PyStr.remove_char "-" n) (w s)).1 = false ->
        n_out (body e r s) = n_out s /\ out (body e r s) = out s)).
  { intros c p n t Hr.
    destruct (required_fields r c p n t Hr) as (Hc & _ & Hp & _ & Ht & _ & Hn & Hcomp).
    rewrite complete_true_resolves by done. cbn zeta. rewrite Hn.
    destruct (truthy (ndc_to_rxcui e (PyStr.remove_char "-" n) (w s)).1) eqn:Htr;
      cbn [w out n_in n_out].
    - split; [done|]. split; [|done]. intros _. split; [done|]. split; [done|].
      unfold rule. rewrite Hc, Hp, Ht. done.
    - split; [done|]. split; [done|]. done. }
  split; [|split; [exact Hreq|]].
  - split.
    + intros [l Hl]. destruct (complete r) eqn:Hcomp.
      * destruct (complete_required r Hcomp) as (c & p & n & t & Hr).
        exists c, p, n, t. split; [done|].
        destruct (Hreq c p n t Hr) as (_ & _ & Hf).
        destruct (truthy (ndc_to_rxcui e (PyStr.remove_char "-" n) (w s)).1);
          [done|].
        destruct (Hf eq_refl) as [_ Ho]. rewrite Ho in Hl. by destruct (Hno l).
      * rewrite complete_false_skips in Hl by done. cbn in Hl. by destruct (Hno l).
    + intros (c & p & n & t & Hr & Htr).
      destruct (Hreq c p n t Hr) as (_ & Ht & _).
      destruct (Ht Htr) as (_ & Ho & _). by eexists.
  - intros Hnone. destruct (complete r) eqn:Hcomp.
    + destruct (complete_required r Hcomp) as (c & p & n & t & Hr).
      by destruct (Hnone c p n t).
    + by rewrite complete_false_skips.
Qed.

Lemma rule_emitted_iff_complete_and_resolved_witness :
  required Examples.row_fallback "H1" "001" "0002-1433-80" "2" /\
  truthy (ndc_to_rxcui Examples.env_one (PyStr.remove_char "-" "0002-1433-80")
            (w Examples.run0)).1 = true /\
  n_out (body Examples.env_one Examples.row_fallback Examples.run0)
    = S (n_out Examples.run0) /\
  out (body Examples.env_one Examples.row_fallback Examples.run0)
    = out Examples.run0
      ++ [rule Examples.row_fallback
            (ndc_to_rxcui Examples.env_one (PyStr.remove_char "-" "0002-1433-80")
               (w Examples.run0)).1] /\
  rule Examples.row_fallback
    (ndc_to_rxcui Examples.env_one (PyStr.remove_char "-" "0002-1433-80")
       (w Examples.run0)).1 !! 0 = Some (JStr ("H1" +:+ "-" +:+ "001")).
Proof.
  assert (Hb : forall k, k = "CONTRACT_ID" \/ k = "PLAN_ID" \/ k = "NDC" \/ k = "TIER" ->
                         blank Examples.row_fallback k).
  { intros k Hk s0 [Hs _].
    destruct Hk as [-> | [-> | [-> | ->]]]; vm_compute in Hs; discriminate Hs. }
  assert (Hr : required Examples.row_fallback "H1" "001" "0002-1433-80" "2").
  { split; [|split; [|split; [|split]]].
    - right. split; [apply Hb; tauto|]. split; [vm_compute; reflexivity | discriminate].
    - right. split; [apply Hb; tauto|]. split; [vm_compute; reflexivity | discriminate].
    - right. split; [apply Hb; tauto|]. split; [vm_compute; reflexivity | discriminate].
    - vm_compute. discriminate.
    - right. split; [apply Hb; tauto|]. split; [vm_compute; reflexivity | discriminate]. }
  assert (Ht : truthy (ndc_to_rxcui Examples.env_one
                         (PyStr.remove_char "-" "0002-1433-80")
                         (w Examples.run0)).1 = true) by (vm_compute; reflexivity).
  split; [exact Hr|]. split; [exact Ht|].
  destruct (proj2 (proj1 (proj2 (proj2 (proj2
    (rule_emitted_iff_complete_and_resolved Examples.env_one Examples.row_fallback
       Examples.run0)))) "H1" "001" "0002-1433-80" "2" Hr)) as [Hyes _].
  destruct (Hyes Ht) as (H1 & H2 & H3 & _).
  split; [exact H1|]. split; [exact H2 | exact H3].
Defined.

Lemma lstrip_split s : exists a, s = a +:+ PyStr.lstrip s /\ all_space a.
Proof.
  induction s as [|c s (a & Hs & Ha)]; [by exists ""|]. cbn [PyStr.lstrip].
  destruct (PyStr.is_space c) eqn:Hc.
  - exists (String c a). split; [|by split].
    change (String c a +:+ PyStr.lstrip s) with (String c (a +:+ PyStr.lstrip s)).
    by rewrite <- Hs.
  - by exists "".
Qed.

Lemma rstrip_split s : exists b, s = PyStr.rstrip s +:+ b /\ all_space b.
Proof.
  induction s as [|c s (b & Hs & Hb)]; [by exists ""|]. rewrite rstrip_cons.
  destruct (PyStr.rstrip s) as [|d r] eqn:Hr.
  - cbn in Hs. subst s. destruct (PyStr.is_space c) eqn:Hc.
    + by exists (String c b).
    + by exists b.
  - exists b. split; [|done].
    change (String c (String d r) +:+ b) with (String c (String d r +:+ b)).
    by rewrite <- Hs.
Qed.

(** A string is its stripped self between two runs of whitespace. *)
Lemma strip_split s :
  exists a b, s = a +:+ PyStr.strip s +:+ b /\ all_space a /\ all_space b.
Proof.
  destruct (lstrip_split s) as (a & Hs & Ha).
  destruct (rstrip_split (PyStr.lstrip s)) as (b & Hl & Hb).
  exists a, b. split; [|done]. unfold PyStr.strip. by rewrite <- Hl.
Qed.

Lemma upper_char_source c : c = PyStr.upper_char c \/ c = PyStr.lower_char (PyStr.upper_char c).
Proof. destruct c as [[] [] [] [] [] [] [] []]; (by left) || (by right). Qed.

Lemma upper_inv_nil u : PyStr.upper u = "" -> u = "".
Proof. by destruct u. Qed.

Lemma upper_inv_cons u d t :
  PyStr.upper u = String d t ->
  exists c u', u = String c u' /\ (c = d \/ c = PyStr.lower_char d) /\ PyStr.upper u' = t.
Proof.
  destruct u as [|c u']; [done|]. cbn. intros [= <- <-].
  exists c, u'. split; [done|]. split; [apply upper_char_source | done].
Qed.

(** The strings that upper-case to a token are its spellings. *)
Lemma upper_token_spelling u :
  PyStr.upper u ∈ truthy_tokens -> u ∈ truthy_spellings.
Proof.
  unfold truthy_tokens. rewrite !elem_of_union, !elem_of_singleton.
  intros H.
  repeat match goal with
  | H : _ \/ _ |- _ => destruct H as [H | H]
  | H : PyStr.upper _ = String _ _ |- _ =>
      apply upper_inv_cons in H as (? & ? & -> & ? & H)
  | H : PyStr.upper _ = "" |- _ => apply upper_inv_nil in H; subst
  | H : _ = _ :> ascii |- _ => subst
  end; vm_compute; repeat constructor.
Qed.

Lemma spellings_are_truthy :
  Forall (fun t => PyStr.strip t = t /\ _norm_bool (Some t) = true) truthy_spellings.
Proof. unfold truthy_spellings. repeat constructor. Qed.

(** C2: a flag value normalises to true exactly when, trimmed and
    upper-cased, it is one of Y, YES, TRUE, T, 1.  For a value made of
    ASCII characters that is: exactly when it is one of these words in any
    mix of upper and lower case, with any whitespace around it.  The value
    [None] of a short line normalises to false.  Each of the three flags of
    a rule is the normalised value of its column in the row, and false when
    the row has no such column. *)
Theorem norm_bool_true_iff_token :
  (forall v : option string,
     _norm_bool v = true <->
     let s := PyStr.upper (PyStr.strip (str v)) in
     s = "Y" \/ s = "YES" \/ s = "TRUE" \/ s = "T" \/ s = "1") /\
  (forall s : string, ascii_text s ->
     (_norm_bool (Some s) = true <->
      exists a t b, s = a +:+ t +:+ b /\ all_space a /\ all_space b /\
                    t ∈ truthy_spellings)) /\
  _norm_bool None = false /\
  (forall (r : row) (rxcui : json) (i : nat) (k : string),
     (i, k) ∈ flag_cells ->
     rule r rxcui !! i
     = Some (JBool match r !! k with
                   | Some v => _norm_bool v
                   | None => false
                   end)).
Proof.
  split; [|split; [|split]].
  - intros v. unfold _norm_bool, truthy_tokens. cbn zeta.
    rewrite bool_decide_eq_true, !elem_of_union, !elem_of_singleton. tauto.
  - intros s _. split.
    + intros H. apply bool_decide_eq_true in H. cbn [str] in H.
      apply upper_token_spelling in H.
      destruct (strip_split s) as (a & b & Hs & Ha & Hb).
      by exists a, (PyStr.strip s), b.
    + intros (a & t & b & -> & Ha & Hb & Ht).
      pose proof spellings_are_truthy as Hall.
      rewrite Forall_forall in Hall. destruct (Hall t Ht) as [Hst Hnb].
      unfold _norm_bool in *. cbn [str] in *.
      by rewrite strip_padded.
  - reflexivity.
  - intros r rxcui i k Hik. unfold flag_cells in Hik.
    repeat (apply elem_of_cons in Hik as [[= -> ->] | Hik];
            [unfold rule, rget_default; cbn; by destruct (r !! _) |]).
    by apply elem_of_nil in Hik.
Qed.

Lemma norm_bool_true_iff_token_witness :
  ascii_text "  yEs " /\
  (exists a t b, "  yEs " = a +:+ t +:+ b /\ all_space a /\ all_space b /\
                 t ∈ truthy_spellings) /\
  _norm_bool (Some "  yEs ") = true /\
  (6, "PRIOR_AUTHORIZATION_FLAG") ∈ flag_cells /\
  rule Examples.row_fallback (JStr "198440") !! 6 = Some (JBool true).
Proof.
  assert (Ha : ascii_text "  yEs ") by (cbn; repeat (split; [vm_compute; lia|]); exact I).
  assert (Hs : exists a t b, "  yEs " = a +:+ t +:+ b /\ all_space a /\ all_space b /\
                             t ∈ truthy_spellings).
  { exists "  ", "yEs", " ". split; [reflexivity|].
    split; [repeat split|]. split; [repeat split|].
    unfold truthy_spellings. repeat constructor. }
  assert (Hf : (6, "PRIOR_AUTHORIZATION_FLAG") ∈ flag_cells) by (by left).
  split; [exact Ha|]. split; [exact Hs|].
  split; [exact (proj2 (proj1 (proj2 norm_bool_true_iff_token) "  yEs " Ha) Hs)|].
  split; [exact Hf|].
  exact (proj2 (proj2 (proj2 norm_bool_true_iff_token)) Examples.row_fallback
           (JStr "198440") 6 "PRIOR_AUTHORIZATION_FLAG" Hf).
Defined.
